(** * pydoclint: the docstring visitor ([pydoclint/visitor.py])

  A shallow embedding of the [Visitor] class that walks a parsed Python
  module and compares every function signature with its numpy-style
  docstring, together with the properties of the violations it reports.

  The visitor is stateful: it owns a [parent] pointer and a growing
  [violations] list.  Methods are modelled as state transformers
  [Visitor -> Visitor]; the four [check*] methods only read the
  configuration and return a fresh list, as in the source. *)

From Stdlib Require Import String ZArith List Bool Lia Sorted.
Import ListNotations.
Local Open Scope string_scope.
Local Open Scope list_scope.
Set Warnings "-register-all".

(** ** Python built-ins used by the visitor *)

(** [bool(x)] for a list [x] (and for [None], which [dict.get] never
  returns here because numpydoc pre-populates every section). *)
Definition truthy {A : Type} (l : list A) : bool :=
  match l with
  | [] => false
  | _ :: _ => true
  end.

(** [' '.join(parts)] *)
Definition join (sep : string) (parts : list string) : string :=
  String.concat sep parts.

(** ** The syntax tree ([ast]) *)

Module ast.

(** [ast.arg]: one formal parameter; the annotation is kept as its
    source text. *)
Record arg_node := mk_arg {
  arg : string;
  annotation : option string
}.

(** What [visit_FunctionDef] and its helpers read from an
    [ast.FunctionDef] / [ast.AsyncFunctionDef] header.  [args] is
    [node.args.args]. *)
Record signature := mk_signature {
  sig_name : string;
  sig_lineno : Z;
  args : list arg_node;
  decorator_list : list string;
  returns : option string;
  sig_docstring : string
}.

(** Node types the visitor has no method for. *)
Inductive other_kind := Return | Yield | YieldFrom | Other.

(** A node with its child nodes, in the order [generic_visit] iterates
    over them.  Only statements can contain definitions, so the children
    of a definition are its body.  A [Return] node has its value as only
    child, or no child for a bare [return]. *)
Inductive node :=
| ClassDef (name : string) (lineno : Z) (docstring : string) (body : list node)
| FunctionDef (sig : signature) (body : list node)
| AsyncFunctionDef (sig : signature) (body : list node)
| Raise (children : list node)
| Generic (kind : other_kind) (children : list node).

(** [node.name] *)
Definition name (n : node) : string :=
  match n with
  | ClassDef nm _ _ _ => nm
  | FunctionDef s _ | AsyncFunctionDef s _ => sig_name s
  | _ => ""
  end.

(** [node.lineno] *)
Definition lineno (n : node) : Z :=
  match n with
  | ClassDef _ ln _ _ => ln
  | FunctionDef s _ | AsyncFunctionDef s _ => sig_lineno s
  | _ => 0%Z
  end.

(** [node.args.args] *)
Definition args_of (n : node) : list arg_node :=
  match n with
  | FunctionDef s _ | AsyncFunctionDef s _ => args s
  | _ => []
  end.

(** The child nodes [generic_visit] iterates over. *)
Definition children (n : node) : list node :=
  match n with
  | ClassDef _ _ _ body => body
  | FunctionDef _ body | AsyncFunctionDef _ body => body
  | Raise cs => cs
  | Generic _ cs => cs
  end.

(** [isinstance(p, ast.ClassDef)] for an [Optional[ast.AST]]. *)
Definition isinstance_ClassDef (p : option node) : bool :=
  match p with
  | Some (ClassDef _ _ _ _) => true
  | _ => false
  end.

(** Dereferencing an [Optional[ast.AST]].  Attribute access on [None]
    raises in Python; the visitor only does it behind an [isinstance]
    test, so the node chosen for [None] is never observed. *)
Definition deref (p : option node) : node :=
  match p with
  | Some n => n
  | None => Generic Other []
  end.

End ast.

(** ** numpydoc *)

Module numpydoc.

(** [numpydoc.docscrape.Parameter] ([Parameter] is reserved here). *)
Record DocParameter := mk_DocParameter {
  name : string;
  type : string;
  desc : list string
}.

(** The sections of a parsed docstring, as listed in the comment of
    [visit_FunctionDef].  Every key is always present, so
    [doc.get(key)] is the field. *)
Record NumpyDocString := mk_NumpyDocString {
  Signature : string;
  Summary : list string;
  Extended_Summary : list string;
  Parameters : list DocParameter;
  Returns : list DocParameter;
  Yields : list DocParameter;
  Receives : list DocParameter;
  Raises : list DocParameter;
  Warns : list DocParameter;
  Other_Parameters : list DocParameter;
  Attributes : list DocParameter;
  Methods : list DocParameter;
  See_Also : list string;
  Notes : list string;
  Warnings : list string;
  References : string;
  Examples : string;
  index : list (string * string)
}.

End numpydoc.

(** ** Arguments ([pydoclint/arg.py]) *)

Module Arg.

(** Modelled from the spec: the class [Arg] of [pydoclint/arg.py], whose
    source is not available.  One parameter: a name, an optional type
    hint and an optional default value (informational, never compared). *)
Record Arg := mk_Arg {
  name : string;
  typeHint : option string;
  defaultValue : option string
}.

(** Equality of two optional strings. *)
Definition hint_eqb (a b : option string) : bool :=
  match a, b with
  | Some x, Some y => String.eqb x y
  | None, None => true
  | _, _ => false
  end.

(** Modelled from the spec: equality of two [Arg]s under the mode flag
    [checkTypeHint]: the names match and, when the flag is set, so do the
    type hints. *)
Definition eqb (checkTypeHint : bool) (a b : Arg) : bool :=
  String.eqb (name a) (name b)
  && (if checkTypeHint then hint_eqb (typeHint a) (typeHint b) else true).

(** Modelled from the spec: [Arg.fromNumpydocParam], the normalised form
    of a documented parameter; an omitted type is an absent hint. *)
Definition fromNumpydocParam (param : numpydoc.DocParameter) : Arg :=
  mk_Arg (numpydoc.name param)
         (if String.eqb (numpydoc.type param) "" then None
          else Some (numpydoc.type param))
         None.

(** Modelled from the spec: [Arg.fromAstArg], the normalised form of a
    parameter of the signature. *)
Definition fromAstArg (astArg : ast.arg_node) : Arg :=
  mk_Arg (ast.arg astArg) (ast.annotation astArg) None.

End Arg.

Module ArgList.

(** Modelled from the spec: [ArgList] of [pydoclint/arg.py], an ordered
    sequence of [Arg]; its constructor wraps the list it is given. *)
Definition ArgList := list Arg.Arg.

(** Modelled from the spec: [ArgList.length]. *)
Definition length (self : ArgList) : nat := List.length self.

(** Position-wise comparison of two sequences. *)
Fixpoint seq_eqb (eq : Arg.Arg -> Arg.Arg -> bool) (l1 l2 : ArgList) : bool :=
  match l1, l2 with
  | [], [] => true
  | a :: l1', b :: l2' => eq a b && seq_eqb eq l1' l2'
  | _, _ => false
  end.

(** Every element of [l1] has an equal in [l2]. *)
Definition subset (eq : Arg.Arg -> Arg.Arg -> bool) (l1 l2 : ArgList) : bool :=
  forallb (fun a => existsb (eq a) l2) l1.

(** Modelled from the spec: [ArgList.equals].  With [orderMatters] the
    two lists are compared as sequences, position by position; without
    it as sets; both under [Arg] equality in mode [checkTypeHint]. *)
Definition equals (self other : ArgList) (checkTypeHint orderMatters : bool) : bool :=
  if orderMatters then seq_eqb (Arg.eqb checkTypeHint) self other
  else subset (Arg.eqb checkTypeHint) self other
       && subset (Arg.eqb checkTypeHint) other self.

(** A set of [Arg]s, as a list without repetition (name and type hint
    identify an element). *)
Fixpoint to_set (l : list Arg.Arg) : list Arg.Arg :=
  match l with
  | [] => []
  | a :: l' =>
      if existsb (Arg.eqb true a) l' then to_set l' else a :: to_set l'
  end.

(** Modelled from the spec: [ArgList.subtract], the set of the [Arg]s of
    [self] that are absent from [other]. *)
Definition subtract (self other : ArgList) : list Arg.Arg :=
  to_set (filter (fun a => negb (existsb (Arg.eqb true a) other)) self).

End ArgList.

(** ** Method types ([pydoclint/method_type.py]) *)

(** Modelled from the spec: the enumeration [MethodType]; only the two
    members named by [checkArguments] matter to the visitor. *)
Inductive MethodType :=
| FUNCTION
| INSTANCE_METHOD
| CLASS_METHOD
| STATIC_METHOD.

(** [mType in {MethodType.INSTANCE_METHOD, MethodType.CLASS_METHOD}] *)
Definition is_instance_or_class_method (mType : MethodType) : bool :=
  match mType with
  | INSTANCE_METHOD | CLASS_METHOD => true
  | _ => false
  end.

(** ** Violations ([pydoclint/violation.py]) *)

(** Modelled from the spec: the immutable record [Violation]; the
    constructor's [msgPostfix] defaults to the empty string. *)
Record Violation := mkViolation {
  code : Z;
  line : Z;
  msgPrefix : string;
  msgPostfix : string
}.

(** Does the list hold a violation with code [c]? *)
Definition emits (c : Z) (vs : list Violation) : bool :=
  existsb (fun v => Z.eqb (code v) c) vs.

(** ** Helpers of [pydoclint/utils/generic.py] *)

(** Modelled from the spec: [getDocstring], the documentation comment
    attached to a definition, the empty string when there is none. *)
Definition getDocstring (n : ast.node) : string :=
  match n with
  | ast.ClassDef _ _ doc _ => doc
  | ast.FunctionDef s _ | ast.AsyncFunctionDef s _ => ast.sig_docstring s
  | _ => ""
  end.

(** Modelled from the spec: [isShortDocstring]: the documentation is only
    a one-line summary and has no structured section. *)
Definition isShortDocstring (doc : numpydoc.NumpyDocString) : bool :=
  Nat.eqb (List.length (numpydoc.Summary doc)) 1
  && negb (truthy (numpydoc.Extended_Summary doc))
  && negb (truthy (numpydoc.Parameters doc))
  && negb (truthy (numpydoc.Returns doc))
  && negb (truthy (numpydoc.Yields doc))
  && negb (truthy (numpydoc.Receives doc))
  && negb (truthy (numpydoc.Raises doc))
  && negb (truthy (numpydoc.Warns doc))
  && negb (truthy (numpydoc.Other_Parameters doc))
  && negb (truthy (numpydoc.Attributes doc))
  && negb (truthy (numpydoc.Methods doc))
  && negb (truthy (numpydoc.See_Also doc))
  && negb (truthy (numpydoc.Notes doc))
  && negb (truthy (numpydoc.Warnings doc))
  && String.eqb (numpydoc.References doc) ""
  && String.eqb (numpydoc.Examples doc) "".

(** ** What the visitor imports from code whose source is not available

    The docstring parser of the numpydoc library, the predicate
    extractors of [pydoclint/utils/return_yield_raise.py], and
    [detectMethodType] and [generateMsgPrefix] of
    [pydoclint/utils/generic.py].  The visitor is verified for every
    implementation of this interface. *)
Class Collaborators := {
  (** [NumpyDocString(docstring)] *)
  NumpyDocString__init__ : string -> numpydoc.NumpyDocString;
  detectMethodType : ast.node -> MethodType;
  (** [generateMsgPrefix(node, parent, appendColon)] *)
  generateMsgPrefix : ast.node -> option ast.node -> bool -> string;
  hasGeneratorAsReturnAnnotation : ast.node -> bool;
  hasRaiseStatements : ast.node -> bool;
  hasReturnAnnotation : ast.node -> bool;
  hasReturnStatements : ast.node -> bool;
  hasYieldStatements : ast.node -> bool;
  (** [f'{sorted(s)}'] for a set [s] of [Arg]s *)
  format_sorted : list Arg.Arg -> string
}.

(** ** The visitor ([class Visitor]) *)

(** The fields of a [Visitor] object. *)
Record Visitor := mkVisitor {
  checkTypeHint : bool;
  checkArgOrder : bool;
  skipCheckingShortDocstrings : bool;
  skipCheckingRaises : bool;
  parent : option ast.node;
  violations : list Violation
}.

(** [Visitor.__init__] *)
Definition Visitor__init__
  (checkTypeHint checkArgOrder skipCheckingShortDocstrings skipCheckingRaises : bool)
  : Visitor :=
  mkVisitor checkTypeHint checkArgOrder skipCheckingShortDocstrings
            skipCheckingRaises None [].

(** [Visitor()], with the default values of the keyword arguments. *)
Definition Visitor_default : Visitor := Visitor__init__ true true true false.

(** [self.parent = p] *)
Definition set_parent (p : option ast.node) (self : Visitor) : Visitor :=
  mkVisitor (checkTypeHint self) (checkArgOrder self)
            (skipCheckingShortDocstrings self) (skipCheckingRaises self)
            p (violations self).

(** [self.violations.extend(vs)] *)
Definition violations_extend (vs : list Violation) (self : Visitor) : Visitor :=
  mkVisitor (checkTypeHint self) (checkArgOrder self)
            (skipCheckingShortDocstrings self) (skipCheckingRaises self)
            (parent self) (violations self ++ vs).

(** [self.violations.append(v)] *)
Definition violations_append (v : Violation) (self : Visitor) : Visitor :=
  violations_extend [v] self.

(** [name == '__init__' and isinstance(parent_, ast.ClassDef)], the
    first test of [visit_FunctionDef]. *)
Definition isClassConstructor (parent_ : option ast.node) (node : ast.node) : bool :=
  String.eqb (ast.name node) "__init__" && ast.isinstance_ClassDef parent_.

(** [f'Class `{className}`:'] *)
Definition class_prefix (className : string) : string :=
  ("Class `" ++ className ++ "`:")%string.

Section Methods.

Context {collaborators : Collaborators}.

(** [Visitor.validateDocArgs] *)
Definition validateDocArgs (self : Visitor)
  (docArgList : list numpydoc.DocParameter) (actualArgs : list ast.arg_node)
  (node : ast.node) (msgPrefix : string) : list Violation :=
  let lineNum := ast.lineno node in
  let v101 := mkViolation 101 lineNum msgPrefix "" in
  let v102 := mkViolation 102 lineNum msgPrefix "" in
  let v104 := mkViolation 104 lineNum msgPrefix "" in
  let v105 := mkViolation 105 lineNum msgPrefix "" in
  let docArgs : ArgList.ArgList := map Arg.fromNumpydocParam docArgList in
  let funcArgs : ArgList.ArgList := map Arg.fromAstArg actualArgs in
  if Nat.eqb (ArgList.length docArgs) 0 && Nat.eqb (ArgList.length funcArgs) 0
  then []
  else
    let violations : list Violation := [] in
    let violations :=
      if Nat.ltb (ArgList.length docArgs) (ArgList.length funcArgs)
      then violations ++ [v101] else violations in
    let violations :=
      if Nat.ltb (ArgList.length funcArgs) (ArgList.length docArgs)
      then violations ++ [v102] else violations in
    if negb (ArgList.equals docArgs funcArgs (checkTypeHint self) (checkArgOrder self))
    then
      if ArgList.equals docArgs funcArgs (checkTypeHint self) false
      then violations ++ [v104]
      else if ArgList.equals docArgs funcArgs false (checkArgOrder self)
      then violations ++ [v105]
      else if ArgList.equals docArgs funcArgs false false
      then (violations ++ [v104]) ++ [v105]
      else
        let argsInFuncNotInDoc := ArgList.subtract funcArgs docArgs in
        let argsInDocNotInFunc := ArgList.subtract docArgs funcArgs in
        let msgPostfixParts : list string := [] in
        let msgPostfixParts :=
          if truthy argsInFuncNotInDoc
          then msgPostfixParts ++
               [("Arguments in the function signature but not in the docstring: "
                 ++ format_sorted argsInFuncNotInDoc ++ ".")%string]
          else msgPostfixParts in
        let msgPostfixParts :=
          if truthy argsInDocNotInFunc
          then msgPostfixParts ++
               [("Arguments in the docstring but not in the function signature: "
                 ++ format_sorted argsInDocNotInFunc ++ ".")%string]
          else msgPostfixParts in
        violations ++ [mkViolation 103 lineNum msgPrefix (join " " msgPostfixParts)]
    else violations.

(** [Visitor.checkArguments] *)
Definition checkArguments (self : Visitor) (node : ast.node)
  (parent_ : option ast.node) (docstringStruct : numpydoc.NumpyDocString)
  : list Violation :=
  let argList := ast.args_of node in
  let isMethod := ast.isinstance_ClassDef parent_ in
  let msgPrefix := generateMsgPrefix node parent_ true in
  let argList :=
    if isMethod then
      let mType := detectMethodType node in
      if is_instance_or_class_method mType then tl argList else argList
    else argList in
  let docArgList := numpydoc.Parameters docstringStruct in
  validateDocArgs self docArgList argList node msgPrefix.

(** [Visitor.checkReturns] *)
Definition checkReturns (node : ast.node) (parent : option ast.node)
  (nonEmptyDocStruct : numpydoc.NumpyDocString) : list Violation :=
  let lineNum := ast.lineno node in
  let msgPrefix := generateMsgPrefix node parent false in
  let v201 := mkViolation 201 lineNum msgPrefix "" in
  let v202 := mkViolation 202 lineNum msgPrefix "" in
  let hasReturnStmt := hasReturnStatements node in
  let hasReturnAnno := hasReturnAnnotation node in
  let hasGenAsRetAnno := hasGeneratorAsReturnAnnotation node in
  let docstringHasReturnSection := truthy (numpydoc.Returns nonEmptyDocStruct) in
  let violations : list Violation := [] in
  let violations :=
    if negb docstringHasReturnSection then
      if hasReturnStmt || (hasReturnAnno && negb hasGenAsRetAnno)
      then violations ++ [v201] else violations
    else violations in
  let violations :=
    if docstringHasReturnSection && negb (hasReturnStmt || hasReturnAnno)
    then violations ++ [v202] else violations in
  violations.

(** [Visitor.checkReturnsInClassConstructor] *)
Definition checkReturnsInClassConstructor (parent : ast.node)
  (nonEmptyDocStruct : numpydoc.NumpyDocString) : list Violation :=
  let violations : list Violation := [] in
  let docstringHasReturnSection := truthy (numpydoc.Returns nonEmptyDocStruct) in
  let violations :=
    if docstringHasReturnSection
    then violations ++
         [mkViolation 302 (ast.lineno parent) (class_prefix (ast.name parent)) ""]
    else violations in
  violations.

(** [Visitor.checkYields] *)
Definition checkYields (node : ast.node) (parent : option ast.node)
  (nonEmptyDocStruct : numpydoc.NumpyDocString) : list Violation :=
  let violations : list Violation := [] in
  let lineNum := ast.lineno node in
  let msgPrefix := generateMsgPrefix node parent false in
  let v401 := mkViolation 401 lineNum msgPrefix "" in
  let v402 := mkViolation 402 lineNum msgPrefix "" in
  let v403 := mkViolation 403 lineNum msgPrefix "" in
  let docstringHasYieldsSection := truthy (numpydoc.Yields nonEmptyDocStruct) in
  let hasYieldStmt := hasYieldStatements node in
  let hasGenAsRetAnno := hasGeneratorAsReturnAnnotation node in
  let violations :=
    if negb docstringHasYieldsSection then
      let violations :=
        if hasGenAsRetAnno then violations ++ [v401] else violations in
      if hasYieldStmt then violations ++ [v402] else violations
    else violations in
  let violations :=
    if docstringHasYieldsSection then
      if negb hasYieldStmt && negb hasGenAsRetAnno
      then violations ++ [v403] else violations
    else violations in
  violations.

(** [Visitor.checkRaises] *)
Definition checkRaises (node : ast.node) (parent : option ast.node)
  (nonEmptyDocStruct : numpydoc.NumpyDocString) : list Violation :=
  let violations : list Violation := [] in
  let lineNum := ast.lineno node in
  let msgPrefix := generateMsgPrefix node parent false in
  let v501 := mkViolation 501 lineNum msgPrefix "" in
  let v502 := mkViolation 502 lineNum msgPrefix "" in
  let docstringHasRaisesSection := truthy (numpydoc.Raises nonEmptyDocStruct) in
  let hasRaiseStmt := hasRaiseStatements node in
  let violations :=
    if hasRaiseStmt && negb docstringHasRaisesSection
    then violations ++ [v501] else violations in
  let violations :=
    if negb hasRaiseStmt && docstringHasRaisesSection
    then violations ++ [v502] else violations in
  violations.

(** [Visitor.visit_FunctionDef].  [generic_visit] stands for
    [self.generic_visit(node)], the walk over the children of [node]. *)
Definition visit_FunctionDef (generic_visit : Visitor -> Visitor)
  (node : ast.node) (self : Visitor) : Visitor :=
  let parent_ := parent self in
  let self := set_parent (Some node) self in
  let isClassConstructor := isClassConstructor parent_ node in
  let docstring := getDocstring node in
  let self :=
    if isClassConstructor then
      let className := ast.name (ast.deref parent_) in
      if Nat.ltb 0 (String.length docstring)
      then violations_append
             (mkViolation 301 (ast.lineno node) (class_prefix className) "") self
      else self
    else self in
  let docstring :=
    if isClassConstructor then getDocstring (ast.deref parent_) else docstring in
  let '(argViolations, returnViolations, yieldViolations, raiseViolations) :=
    if String.eqb docstring "" then ([], [], [], [])
    else
      let doc := NumpyDocString__init__ docstring in
      let isShort := isShortDocstring doc in
      let '(argViolations, returnViolations, yieldViolations, raiseViolations) :=
        if skipCheckingShortDocstrings self && isShort then ([], [], [], [])
        else
          let argViolations := checkArguments self node parent_ doc in
          if String.eqb docstring "" then (argViolations, [], [], [])
          else
            (argViolations,
             checkReturns node parent_ doc,
             checkYields node parent_ doc,
             if negb (skipCheckingRaises self)
             then checkRaises node parent_ doc else [])
      in
      let returnViolations :=
        if isClassConstructor
        then checkReturnsInClassConstructor (ast.deref parent_) doc
        else returnViolations in
      (argViolations, returnViolations, yieldViolations, raiseViolations)
  in
  let self := violations_extend argViolations self in
  let self := violations_extend returnViolations self in
  let self := violations_extend yieldViolations self in
  let self := violations_extend raiseViolations self in
  let self := generic_visit self in
  set_parent parent_ self.

(** [Visitor.visit_ClassDef] *)
Definition visit_ClassDef (generic_visit : Visitor -> Visitor)
  (node : ast.node) (self : Visitor) : Visitor :=
  let currentParent := parent self in
  let self := set_parent (Some node) self in
  let self := generic_visit self in
  set_parent currentParent self.

(** [Visitor.visit_AsyncFunctionDef] *)
Definition visit_AsyncFunctionDef (generic_visit : Visitor -> Visitor)
  (node : ast.node) (self : Visitor) : Visitor :=
  visit_FunctionDef generic_visit node self.

(** [Visitor.visit_Raise] *)
Definition visit_Raise (generic_visit : Visitor -> Visitor)
  (node : ast.node) (self : Visitor) : Visitor :=
  generic_visit self.

(** [ast.NodeVisitor.visit]: dispatch on the class of the node, with
    [generic_visit] as the fallback; [generic_visit] visits the children
    from first to last. *)
Fixpoint visit (node : ast.node) (self : Visitor) {struct node} : Visitor :=
  let generic_visit (children : list ast.node) (self : Visitor) :=
    fold_left (fun self child => visit child self) children self in
  match node with
  | ast.ClassDef _ _ _ body => visit_ClassDef (generic_visit body) node self
  | ast.FunctionDef _ body => visit_FunctionDef (generic_visit body) node self
  | ast.AsyncFunctionDef _ body =>
      visit_AsyncFunctionDef (generic_visit body) node self
  | ast.Raise children => visit_Raise (generic_visit children) node self
  | ast.Generic _ children => generic_visit children self
  end.

(** [ast.NodeVisitor.generic_visit] *)
Definition generic_visit (node : ast.node) (self : Visitor) : Visitor :=
  fold_left (fun self child => visit child self) (ast.children node) self.

(** The violations [visit_FunctionDef] records for the definition itself:
    what it has added to [self.violations] when it descends into the body. *)
Definition definitionViolations (self : Visitor) (node : ast.node) : list Violation :=
  skipn (List.length (violations self))
        (violations (visit_FunctionDef (fun s => s) node self)).

(** The docstring the checks of [visit_FunctionDef] work on: the one of
    the class for a constructor, the definition's own otherwise. *)
Definition workingDocstring (parent_ : option ast.node) (node : ast.node) : string :=
  if isClassConstructor parent_ node
  then getDocstring (ast.deref parent_) else getDocstring node.

(** The violation 301 of a constructor that has a docstring of its own. *)
Definition ownDocstringViolation (parent_ : option ast.node) (node : ast.node)
  : list Violation :=
  if isClassConstructor parent_ node && Nat.ltb 0 (String.length (getDocstring node))
  then [mkViolation 301 (ast.lineno node)
                    (class_prefix (ast.name (ast.deref parent_))) ""]
  else [].

(** Is the definition checked at all?  Its working docstring is not
    empty, and it is not a short one skipped by configuration. *)
Definition isChecked (self : Visitor) (node : ast.node) : bool :=
  let docstring := workingDocstring (parent self) node in
  negb (String.eqb docstring "")
  && negb (skipCheckingShortDocstrings self
           && isShortDocstring (NumpyDocString__init__ docstring)).

(** A visitor that had already recorded [vs] before. *)
Definition violations_prepend (vs : list Violation) (self : Visitor) : Visitor :=
  mkVisitor (checkTypeHint self) (checkArgOrder self)
            (skipCheckingShortDocstrings self) (skipCheckingRaises self)
            (parent self) (vs ++ violations self).

(** All the codes of [vs] are among [cs]. *)
Definition codes_within (cs : list Z) (vs : list Violation) : Prop :=
  forall v, In v vs -> In (code v) cs.

(** All the violations of [vs] are reported at line [ln]. *)
Definition reported_at (ln : Z) (vs : list Violation) : Prop :=
  forall v, In v vs -> line v = ln.

(** One run of the checker: a new visitor walks the tree. *)
Definition run (checkTypeHint checkArgOrder skipCheckingShortDocstrings
                skipCheckingRaises : bool) (tree : ast.node) : list Violation :=
  violations
    (visit tree (Visitor__init__ checkTypeHint checkArgOrder
                                 skipCheckingShortDocstrings skipCheckingRaises)).

End Methods.

(** ** A reference implementation of the imported helpers

    Used to run the visitor on concrete trees. *)

Module Reference.

(** Does [p] hold of [n] or of one of its descendants ([ast.walk])? *)
Fixpoint walk_any (p : ast.node -> bool) (n : ast.node) {struct n} : bool :=
  p n ||
  match n with
  | ast.ClassDef _ _ _ cs | ast.FunctionDef _ cs | ast.AsyncFunctionDef _ cs
  | ast.Raise cs | ast.Generic _ cs => existsb (walk_any p) cs
  end.

(** Does [p] hold somewhere in the body of [n]? *)
Definition in_body (p : ast.node -> bool) (n : ast.node) : bool :=
  existsb (walk_any p) (ast.children n).

(** Modelled from the spec: [hasReturnStatements], the presence of a
    value-bearing [return] anywhere in the body; a bare [return] does not
    count. *)
Definition hasReturnStatements (n : ast.node) : bool :=
  in_body (fun m => match m with
                    | ast.Generic ast.Return (_ :: _) => true
                    | _ => false
                    end) n.

(** The return annotation of a definition. *)
Definition returns_of (n : ast.node) : option string :=
  match n with
  | ast.FunctionDef s _ | ast.AsyncFunctionDef s _ => ast.returns s
  | _ => None
  end.

(** Modelled from the spec: [hasReturnAnnotation], the presence of a
    return-type annotation. *)
Definition hasReturnAnnotation (n : ast.node) : bool :=
  match returns_of n with
  | Some _ => true
  | None => false
  end.

(** Modelled from the spec: [hasGeneratorAsReturnAnnotation], whether the
    return annotation denotes a generator; here the spelling
    [Generator[...]] that the comment of [checkReturns] names. *)
Definition hasGeneratorAsReturnAnnotation (n : ast.node) : bool :=
  match returns_of n with
  | Some anno => String.prefix "Generator[" anno
  | None => false
  end.

(** Modelled from the spec: [hasYieldStatements], the presence of [yield]
    or [yield from] anywhere in the body. *)
Definition hasYieldStatements (n : ast.node) : bool :=
  in_body (fun m => match m with
                    | ast.Generic ast.Yield _ | ast.Generic ast.YieldFrom _ => true
                    | _ => false
                    end) n.

(** Modelled from the spec: [hasRaiseStatements], the presence of a
    [raise] statement anywhere in the body. *)
Definition hasRaiseStatements (n : ast.node) : bool :=
  in_body (fun m => match m with
                    | ast.Raise _ => true
                    | _ => false
                    end) n.

(** Modelled from the spec: [detectMethodType], from the decorators of a
    definition that sits in a class. *)
Definition detectMethodType (n : ast.node) : MethodType :=
  match n with
  | ast.FunctionDef s _ | ast.AsyncFunctionDef s _ =>
      if existsb (String.eqb "classmethod") (ast.decorator_list s)
      then CLASS_METHOD
      else if existsb (String.eqb "staticmethod") (ast.decorator_list s)
      then STATIC_METHOD
      else INSTANCE_METHOD
  | _ => FUNCTION
  end.

(** Modelled from the spec: [generateMsgPrefix], the text that names the
    definition in a message. *)
Definition generateMsgPrefix (n : ast.node) (parent : option ast.node)
  (appendColon : bool) : string :=
  let colon := if appendColon then ":" else "" in
  if ast.isinstance_ClassDef parent
  then ("Method `" ++ ast.name (ast.deref parent) ++ "." ++ ast.name n ++ "`"
        ++ colon)%string
  else ("Function `" ++ ast.name n ++ "`" ++ colon)%string.

(** Insertion of a name into a list sorted by [String.leb]. *)
Fixpoint insert_sorted (a : Arg.Arg) (l : list Arg.Arg) : list Arg.Arg :=
  match l with
  | [] => [a]
  | b :: l' =>
      if String.leb (Arg.name a) (Arg.name b) then a :: l
      else b :: insert_sorted a l'
  end.

(** Modelled from the spec: the rendering of a set of [Arg]s in a
    message, sorted by name. *)
Definition format_sorted (s : list Arg.Arg) : string :=
  ("[" ++ join ", " (map Arg.name (fold_right insert_sorted [] s)) ++ "]")%string.

(** A line feed. *)
Definition LF : string := String (Ascii.ascii_of_nat 10) EmptyString.

(** The sections of [NumpyDocString('')]. *)
Definition no_sections : numpydoc.NumpyDocString :=
  numpydoc.mk_NumpyDocString "" [""] [] [] [] [] [] [] [] [] [] [] [] [] [] "" "" [].

(** A parsed docstring with the four sections the visitor reads. *)
Definition sections (summary : string)
  (params rets yields raises : list numpydoc.DocParameter)
  : numpydoc.NumpyDocString :=
  numpydoc.mk_NumpyDocString "" [summary] [] params rets yields [] raises
    [] [] [] [] [] [] [] "" "" [].

(** A bare one-line summary. *)
Definition doc_short : string := "Do it.".

(** A class docstring that documents [x] and has a Returns section. *)
Definition doc_point : string :=
  join LF ["A point."; ""; "Parameters"; "----------"; "x : int"; "    Abscissa.";
           ""; "Returns"; "-------"; "int"; "    Nothing."].

(** A docstring that documents [b] before [a] and a raised exception. *)
Definition doc_swapped : string :=
  join LF ["Add."; ""; "Parameters"; "----------"; "b : int"; "a : int";
           ""; "Raises"; "------"; "ValueError"].

(** What numpydoc makes of the docstrings above; every other text is taken
    to have no section. *)
Definition parse (docstring : string) : numpydoc.NumpyDocString :=
  if String.eqb docstring doc_short then sections "Do it." [] [] [] []
  else if String.eqb docstring doc_point then
    sections "A point."
      [numpydoc.mk_DocParameter "x" "int" ["Abscissa."]]
      [numpydoc.mk_DocParameter "" "int" ["Nothing."]] [] []
  else if String.eqb docstring doc_swapped then
    sections "Add."
      [numpydoc.mk_DocParameter "b" "int" []; numpydoc.mk_DocParameter "a" "int" []]
      [] [] [numpydoc.mk_DocParameter "" "ValueError" []]
  else no_sections.

#[export] Instance collaborators : Collaborators := {
  NumpyDocString__init__ := parse;
  detectMethodType := detectMethodType;
  generateMsgPrefix := generateMsgPrefix;
  hasGeneratorAsReturnAnnotation := hasGeneratorAsReturnAnnotation;
  hasRaiseStatements := hasRaiseStatements;
  hasReturnAnnotation := hasReturnAnnotation;
  hasReturnStatements := hasReturnStatements;
  hasYieldStatements := hasYieldStatements;
  format_sorted := format_sorted
}.

(** [def __init__(self, x: int): self.x = x], at line 2, without
    docstring. *)
Definition init_of_Point : ast.node :=
  ast.FunctionDef
    (ast.mk_signature "__init__" 2
       [ast.mk_arg "self" None; ast.mk_arg "x" (Some "int")] [] None "")
    [ast.Generic ast.Other [ast.Generic ast.Other []]].

(** [class Point:] at line 1, documented by [doc_point]. *)
Definition class_Point : ast.node :=
  ast.ClassDef "Point" 1 doc_point [init_of_Point].

(** [def __init__(self): pass], at line 8, with a docstring of its own. *)
Definition init_of_Bare : ast.node :=
  ast.FunctionDef
    (ast.mk_signature "__init__" 8 [ast.mk_arg "self" None] [] None doc_short)
    [ast.Generic ast.Other []].

(** [class Bare:] at line 7, without docstring. *)
Definition class_Bare : ast.node :=
  ast.ClassDef "Bare" 7 "" [init_of_Bare].

(** [def add(a: int, b: int): raise ValueError], at line 12, documented by
    [doc_swapped]. *)
Definition def_add : ast.node :=
  ast.FunctionDef
    (ast.mk_signature "add" 12
       [ast.mk_arg "a" (Some "int"); ast.mk_arg "b" (Some "int")] [] None
       doc_swapped)
    [ast.Raise [ast.Generic ast.Other []]].

(** [def count() -> Generator[int, None, None]:] with the body
    [yield 1; raise StopIteration], at line 20, with a one-line docstring. *)
Definition def_count : ast.node :=
  ast.FunctionDef
    (ast.mk_signature "count" 20 [] [] (Some "Generator[int, None, None]")
       doc_short)
    [ast.Generic ast.Other [ast.Generic ast.Yield [ast.Generic ast.Other []]];
     ast.Raise [ast.Generic ast.Other []]].

(** The visitor, with its default configuration, when it reaches the body
    of [class_Point]. *)
Definition in_Point : Visitor := set_parent (Some class_Point) Visitor_default.

(** The same in the body of [class_Bare]. *)
Definition in_Bare : Visitor := set_parent (Some class_Bare) Visitor_default.

(** A visitor that also checks short docstrings. *)
Definition checks_short : Visitor := Visitor__init__ true true false false.

(** A visitor that checks short docstrings but not the raises. *)
Definition checks_short_no_raises : Visitor := Visitor__init__ true true false true.

(** [class Empty:] at line 30, documented by [doc_point], with a body
    that holds no definition. *)
Definition class_Empty : ast.node :=
  ast.ClassDef "Empty" 30 doc_point [ast.Generic ast.Other []].

(** A module that holds the four definitions above. *)
Definition module_ : ast.node :=
  ast.Generic ast.Other [class_Point; class_Bare; def_add; def_count].

End Reference.

(** ** The report of a walk, as a function of the tree

    Used to state what a whole walk records. *)

(** [isinstance(n, (ast.FunctionDef, ast.AsyncFunctionDef))] *)
Definition is_definition (n : ast.node) : bool :=
  match n with
  | ast.FunctionDef _ _ | ast.AsyncFunctionDef _ _ => true
  | _ => false
  end.

(** Is there a function definition in the tree? *)
Fixpoint contains_definition (n : ast.node) {struct n} : bool :=
  match n with
  | ast.FunctionDef _ _ | ast.AsyncFunctionDef _ _ => true
  | ast.ClassDef _ _ _ cs | ast.Raise cs | ast.Generic _ cs =>
      existsb contains_definition cs
  end.

(** The node and all its descendants, in the order of the walk. *)
Fixpoint subnodes (n : ast.node) {struct n} : list ast.node :=
  n ::
  match n with
  | ast.ClassDef _ _ _ cs | ast.FunctionDef _ cs | ast.AsyncFunctionDef _ cs
  | ast.Raise cs | ast.Generic _ cs => flat_map subnodes cs
  end.

(** The codes of the violation enumeration. *)
Definition violation_codes : list Z :=
  [101; 102; 103; 104; 105; 201; 202; 301; 302; 401; 402; 403; 501; 502]%Z.

(** Is the violation neither a 501 nor a 502? *)
Definition not_raise_violation (v : Violation) : bool :=
  negb (Z.eqb (code v) 501) && negb (Z.eqb (code v) 502).

(** The codes [cs] increase strictly, lie between [lo] and [hi], and none
    is 301. *)
Definition ascending_within (lo hi : Z) (cs : list Z) : Prop :=
  StronglySorted Z.lt cs
  /\ Forall (fun c => (lo <= c <= hi)%Z /\ c <> 301%Z) cs.

Section Reports.

Context {collaborators : Collaborators}.

(** What a walk of [node] records when it starts with parent [parent_]:
    the violations of each definition, in pre-order; a class or a
    definition is the parent of what its body holds, any other node hands
    its own parent down. *)
Fixpoint collect (checkTypeHint checkArgOrder skipCheckingShortDocstrings
                  skipCheckingRaises : bool) (parent_ : option ast.node)
  (node : ast.node) {struct node} : list Violation :=
  match node with
  | ast.ClassDef _ _ _ body =>
      flat_map (collect checkTypeHint checkArgOrder skipCheckingShortDocstrings
                        skipCheckingRaises (Some node)) body
  | ast.FunctionDef _ body | ast.AsyncFunctionDef _ body =>
      definitionViolations
        (mkVisitor checkTypeHint checkArgOrder skipCheckingShortDocstrings
                   skipCheckingRaises parent_ []) node
      ++ flat_map (collect checkTypeHint checkArgOrder
                           skipCheckingShortDocstrings skipCheckingRaises
                           (Some node)) body
  | ast.Raise children | ast.Generic _ children =>
      flat_map (collect checkTypeHint checkArgOrder skipCheckingShortDocstrings
                        skipCheckingRaises parent_) children
  end.

End Reports.

(** * Properties *)

(** ** Induction over the tree *)

Section node_induction.

Variable P : ast.node -> Prop.
Hypothesis step : forall n, Forall P (ast.children n) -> P n.

Fixpoint node_children_ind (n : ast.node) : P n :=
  let all := fix all (cs : list ast.node) : Forall P cs :=
    match cs with
    | [] => Forall_nil P
    | c :: cs' => Forall_cons c (node_children_ind c) (all cs')
    end in
  match n as n0 return Forall P (ast.children n0) -> P n0 with
  | ast.ClassDef nm ln d body => fun H => step (ast.ClassDef nm ln d body) H
  | ast.FunctionDef s body => fun H => step (ast.FunctionDef s body) H
  | ast.AsyncFunctionDef s body => fun H => step (ast.AsyncFunctionDef s body) H
  | ast.Raise cs => fun H => step (ast.Raise cs) H
  | ast.Generic k cs => fun H => step (ast.Generic k cs) H
  end
  (match n as n0 return Forall P (ast.children n0) with
   | ast.ClassDef _ _ _ body => all body
   | ast.FunctionDef _ body => all body
   | ast.AsyncFunctionDef _ body => all body
   | ast.Raise cs => all cs
   | ast.Generic _ cs => all cs
   end).

End node_induction.

(** ** Lists and records *)

Lemma skipn_length_app {A : Type} (l r : list A) :
  skipn (List.length l) (l ++ r) = r.
Proof. induction l as [|x l IH]; simpl; auto. Qed.

Lemma emits_app c (l r : list Violation) :
  emits c (l ++ r) = emits c l || emits c r.
Proof. unfold emits. apply existsb_app. Qed.

Lemma emits_In c (vs : list Violation) :
  emits c vs = true <-> exists v, In v vs /\ code v = c.
Proof.
  unfold emits. rewrite existsb_exists.
  split; intros [v [Hin Hc]]; exists v; split; auto.
  - now apply Z.eqb_eq.
  - now apply Z.eqb_eq.
Qed.

Section Properties.

Context {collaborators : Collaborators}.

(** ** [visit_FunctionDef], piece by piece *)

(** The violations of the definition itself, in the order
    [visit_FunctionDef] records them. *)
Lemma definitionViolations_eq self node :
  definitionViolations self node =
  ownDocstringViolation (parent self) node ++
  (let docstring := workingDocstring (parent self) node in
   if String.eqb docstring "" then []
   else
     let doc := NumpyDocString__init__ docstring in
     let skipped := skipCheckingShortDocstrings self && isShortDocstring doc in
     (if skipped then [] else checkArguments self node (parent self) doc) ++
     (if isClassConstructor (parent self) node
      then checkReturnsInClassConstructor (ast.deref (parent self)) doc
      else if skipped then [] else checkReturns node (parent self) doc) ++
     (if skipped then [] else checkYields node (parent self) doc) ++
     (if skipped || skipCheckingRaises self then []
      else checkRaises node (parent self) doc)).
Proof.
  unfold definitionViolations, visit_FunctionDef, ownDocstringViolation,
    workingDocstring.
  destruct (isClassConstructor (parent self) node) eqn:Hctor; simpl.
  - destruct (Nat.ltb 0 (String.length (getDocstring node))) eqn:Hlen; simpl;
      destruct (String.eqb (getDocstring (ast.deref (parent self))) "") eqn:Hdoc;
      simpl; try rewrite Hdoc;
      try (destruct (skipCheckingShortDocstrings self && _) eqn:Hskip; simpl);
      try (destruct (skipCheckingRaises self); simpl);
      repeat rewrite <- app_assoc; try rewrite skipn_length_app;
      repeat rewrite app_nil_r; simpl; try reflexivity.
  - destruct (String.eqb (getDocstring node) "") eqn:Hdoc;
      simpl; try rewrite Hdoc;
      try (destruct (skipCheckingShortDocstrings self && _) eqn:Hskip; simpl);
      try (destruct (skipCheckingRaises self); simpl);
      repeat rewrite <- app_assoc; try rewrite skipn_length_app;
      repeat rewrite app_nil_r; simpl; try reflexivity.
Qed.

(** ** The argument check *)

#[local] Arguments ArgList.equals : simpl never.

(** Case analysis on the two count tests. *)
Ltac case_counts :=
  match goal with
  | |- context [Nat.ltb (List.length ?a) (List.length ?b)] =>
      destruct (Nat.ltb (List.length a) (List.length b));
      destruct (Nat.ltb (List.length b) (List.length a));
      reflexivity
  end.

(** Case analysis on the next comparison of the two lists. *)
Ltac case_equals :=
  match goal with
  | |- context [ArgList.equals ?a ?b ?t ?o] =>
      destruct (ArgList.equals a b t o)
  end.

Lemma equals_nil checkTypeHint orderMatters :
  ArgList.equals [] [] checkTypeHint orderMatters = true.
Proof. now destruct orderMatters. Qed.

Lemma length_zero_nil {A : Type} (l : list A) :
  Nat.eqb (List.length l) 0 = true -> l = [].
Proof. destruct l; simpl; [reflexivity | discriminate]. Qed.

(** 101 and 102 are decided by the two counts alone. *)
Lemma validateDocArgs_counts self docArgList actualArgs node msgPrefix :
  let vs := validateDocArgs self docArgList actualArgs node msgPrefix in
  emits 101 vs = Nat.ltb (List.length docArgList) (List.length actualArgs)
  /\ emits 102 vs = Nat.ltb (List.length actualArgs) (List.length docArgList).
Proof.
  unfold validateDocArgs, ArgList.length. rewrite !length_map.
  destruct (Nat.eqb (List.length docArgList) 0
            && Nat.eqb (List.length actualArgs) 0) eqn:Hempty.
  - apply andb_prop in Hempty as [Hd Ha].
    apply Nat.eqb_eq in Hd, Ha. now rewrite Hd, Ha.
  - destruct (Nat.ltb (List.length docArgList) (List.length actualArgs));
      destruct (Nat.ltb (List.length actualArgs) (List.length docArgList));
      repeat case_equals; simpl; split; reflexivity.
Qed.

(** C1.  When the documented list differs from the actual list under the
    configured [checkTypeHint] and [checkArgOrder], [validateDocArgs]
    returns the count violations (101, 102) followed by the outcome of the
    first relaxation that succeeds, tried in the order: ignore the order
    (104), ignore the type hints (105), ignore both (104 then 105), none
    (103).  So what follows the count violations carries exactly one of
    the code lists [104], [105], [104; 105], [103].  When the two lists
    are equal under the configured settings, none of 103, 104, 105 is
    returned. *)
Theorem validateDocArgs_first_relaxation
  (self : Visitor) (docArgList : list numpydoc.DocParameter)
  (actualArgs : list ast.arg_node) (node : ast.node) (msgPrefix : string) :
  let docArgs := map Arg.fromNumpydocParam docArgList in
  let funcArgs := map Arg.fromAstArg actualArgs in
  let lineNum := ast.lineno node in
  let v104 := mkViolation 104 lineNum msgPrefix "" in
  let v105 := mkViolation 105 lineNum msgPrefix "" in
  let counts :=
    (if Nat.ltb (List.length docArgList) (List.length actualArgs)
     then [mkViolation 101 lineNum msgPrefix ""] else []) ++
    (if Nat.ltb (List.length actualArgs) (List.length docArgList)
     then [mkViolation 102 lineNum msgPrefix ""] else []) in
  let vs := validateDocArgs self docArgList actualArgs node msgPrefix in
  if ArgList.equals docArgs funcArgs (checkTypeHint self) (checkArgOrder self)
  then emits 103 vs = false /\ emits 104 vs = false /\ emits 105 vs = false
  else
    exists outcome,
      vs = counts ++ outcome
      /\ In (map code outcome) [[104]; [105]; [104; 105]; [103]]%Z
      /\ (if ArgList.equals docArgs funcArgs (checkTypeHint self) false
          then outcome = [v104]
          else if ArgList.equals docArgs funcArgs false (checkArgOrder self)
          then outcome = [v105]
          else if ArgList.equals docArgs funcArgs false false
          then outcome = [v104; v105]
          else exists msgPostfix,
                 outcome = [mkViolation 103 lineNum msgPrefix msgPostfix]).
Proof.
  intros docArgs funcArgs lineNum v104 v105 counts vs.
  subst vs counts. unfold validateDocArgs, ArgList.length.
  rewrite !length_map. fold docArgs funcArgs lineNum v104 v105.
  destruct (Nat.eqb (List.length docArgList) 0
            && Nat.eqb (List.length actualArgs) 0) eqn:Hempty.
  - apply andb_prop in Hempty as [Hd Ha].
    apply length_zero_nil in Hd, Ha. subst docArgs funcArgs.
    rewrite Hd, Ha. simpl. rewrite equals_nil. repeat split.
  - destruct (ArgList.equals docArgs funcArgs (checkTypeHint self)
                             (checkArgOrder self)) eqn:Hstrict; simpl.
    + destruct (Nat.ltb (List.length docArgList) (List.length actualArgs));
        destruct (Nat.ltb (List.length actualArgs) (List.length docArgList));
        repeat split.
    + destruct (ArgList.equals docArgs funcArgs (checkTypeHint self) false).
      { exists [v104].
        split; [case_counts | split; [simpl; auto | reflexivity]]. }
      destruct (ArgList.equals docArgs funcArgs false (checkArgOrder self)).
      { exists [v105].
        split; [case_counts | split; [simpl; auto | reflexivity]]. }
      destruct (ArgList.equals docArgs funcArgs false false).
      { exists [v104; v105].
        split; [case_counts | split; [simpl; auto | reflexivity]]. }
      eexists.
      split; [case_counts | split; [simpl; auto 6 | eexists; reflexivity]].
Qed.

(** C2, as the code has it.  A call of [validateDocArgs] returns 101
    exactly when fewer parameters are documented than declared, and 102
    exactly when more are; the two tests exclude each other, so no call
    returns both. *)
Theorem validateDocArgs_101_102_exclusive
  (self : Visitor) (docArgList : list numpydoc.DocParameter)
  (actualArgs : list ast.arg_node) (node : ast.node) (msgPrefix : string) :
  let vs := validateDocArgs self docArgList actualArgs node msgPrefix in
  emits 101 vs = Nat.ltb (List.length docArgList) (List.length actualArgs)
  /\ emits 102 vs = Nat.ltb (List.length actualArgs) (List.length docArgList)
  /\ emits 101 vs && emits 102 vs = false.
Proof.
  intros vs.
  destruct (validateDocArgs_counts self docArgList actualArgs node msgPrefix)
    as [H101 H102].
  fold vs in H101, H102. rewrite H101, H102. repeat split.
  destruct (Nat.ltb_spec (List.length docArgList) (List.length actualArgs));
    destruct (Nat.ltb_spec (List.length actualArgs) (List.length docArgList));
    simpl; auto; lia.
Qed.

(** ** Codes and lines of each check *)

Lemma codes_within_emits cs vs c :
  codes_within cs vs -> ~ In c cs -> emits c vs = false.
Proof.
  intros Hcs Hc. destruct (emits c vs) eqn:E; [| reflexivity].
  apply emits_In in E as [v [Hin Hv]]. subst c. elim Hc. now apply Hcs.
Qed.

Lemma codes_within_nil cs : codes_within cs [].
Proof. intros v []. Qed.

Lemma reported_at_nil ln : reported_at ln [].
Proof. intros v []. Qed.

(** Closes a goal about every member of a concrete list of violations. *)
Ltac each_member :=
  let v := fresh "v" in
  let Hin := fresh "Hin" in
  intros v Hin; simpl in Hin;
  repeat (destruct Hin as [Hin|Hin]; [subst v; simpl; auto 10 |]);
  try contradiction.

Lemma validateDocArgs_codes self docArgList actualArgs node msgPrefix :
  codes_within [101; 102; 103; 104; 105]%Z
    (validateDocArgs self docArgList actualArgs node msgPrefix).
Proof.
  unfold validateDocArgs.
  destruct (_ && _); [apply codes_within_nil |].
  destruct (Nat.ltb _ _); destruct (Nat.ltb _ _);
    repeat case_equals; cbn [negb app]; each_member.
Qed.

Lemma validateDocArgs_line self docArgList actualArgs node msgPrefix :
  reported_at (ast.lineno node)
    (validateDocArgs self docArgList actualArgs node msgPrefix).
Proof.
  unfold validateDocArgs.
  destruct (_ && _); [apply reported_at_nil |].
  destruct (Nat.ltb _ _); destruct (Nat.ltb _ _);
    repeat case_equals; cbn [negb app]; each_member.
Qed.

Lemma checkReturns_codes node parent_ doc :
  codes_within [201; 202]%Z (checkReturns node parent_ doc).
Proof.
  unfold checkReturns.
  destruct (truthy _), (hasReturnStatements node), (hasReturnAnnotation node),
    (hasGeneratorAsReturnAnnotation node); simpl; each_member.
Qed.

Lemma checkReturns_line node parent_ doc :
  reported_at (ast.lineno node) (checkReturns node parent_ doc).
Proof.
  unfold checkReturns.
  destruct (truthy _), (hasReturnStatements node), (hasReturnAnnotation node),
    (hasGeneratorAsReturnAnnotation node); simpl; each_member.
Qed.

Lemma checkReturnsInClassConstructor_codes cls doc :
  codes_within [302]%Z (checkReturnsInClassConstructor cls doc).
Proof.
  unfold checkReturnsInClassConstructor. destruct (truthy _); simpl; each_member.
Qed.

Lemma checkReturnsInClassConstructor_line cls doc :
  reported_at (ast.lineno cls) (checkReturnsInClassConstructor cls doc).
Proof.
  unfold checkReturnsInClassConstructor. destruct (truthy _); simpl; each_member.
Qed.

Lemma checkYields_codes node parent_ doc :
  codes_within [401; 402; 403]%Z (checkYields node parent_ doc).
Proof.
  unfold checkYields.
  destruct (truthy _), (hasYieldStatements node),
    (hasGeneratorAsReturnAnnotation node); simpl; each_member.
Qed.

Lemma checkYields_line node parent_ doc :
  reported_at (ast.lineno node) (checkYields node parent_ doc).
Proof.
  unfold checkYields.
  destruct (truthy _), (hasYieldStatements node),
    (hasGeneratorAsReturnAnnotation node); simpl; each_member.
Qed.

Lemma checkRaises_codes node parent_ doc :
  codes_within [501; 502]%Z (checkRaises node parent_ doc).
Proof.
  unfold checkRaises.
  destruct (truthy _), (hasRaiseStatements node); simpl; each_member.
Qed.

Lemma checkRaises_line node parent_ doc :
  reported_at (ast.lineno node) (checkRaises node parent_ doc).
Proof.
  unfold checkRaises.
  destruct (truthy _), (hasRaiseStatements node); simpl; each_member.
Qed.

Lemma ownDocstringViolation_codes parent_ node :
  codes_within [301]%Z (ownDocstringViolation parent_ node).
Proof. unfold ownDocstringViolation. destruct (_ && _); each_member. Qed.

Lemma ownDocstringViolation_line parent_ node :
  reported_at (ast.lineno node) (ownDocstringViolation parent_ node).
Proof. unfold ownDocstringViolation. destruct (_ && _); each_member. Qed.

(** A short docstring has no Returns section. *)
Lemma isShortDocstring_no_Returns doc :
  isShortDocstring doc = true -> truthy (numpydoc.Returns doc) = false.
Proof.
  unfold isShortDocstring. intros H.
  repeat (apply andb_prop in H as [H ?]).
  now destruct (truthy (numpydoc.Returns doc)).
Qed.

(** ** The return, yield and raise checks *)

(** C5.  [checkReturns] reports 201 exactly when no Returns section is
    documented and the body has a value-bearing [return] or the definition
    has a return annotation that is not a generator annotation; it reports
    202 exactly when a Returns section is documented and the definition has
    neither a value-bearing [return] nor a return annotation. *)
Theorem checkReturns_201_202
  (node : ast.node) (parent_ : option ast.node) (doc : numpydoc.NumpyDocString) :
  let vs := checkReturns node parent_ doc in
  (emits 201 vs = true <->
     truthy (numpydoc.Returns doc) = false
     /\ (hasReturnStatements node = true
         \/ (hasReturnAnnotation node = true
             /\ hasGeneratorAsReturnAnnotation node = false)))
  /\ (emits 202 vs = true <->
        truthy (numpydoc.Returns doc) = true
        /\ hasReturnStatements node = false
        /\ hasReturnAnnotation node = false).
Proof.
  unfold checkReturns.
  destruct (truthy (numpydoc.Returns doc)), (hasReturnStatements node),
    (hasReturnAnnotation node), (hasGeneratorAsReturnAnnotation node);
    simpl; intuition congruence.
Qed.

(** C6.  [checkYields] reports 401 exactly when no Yields section is
    documented and the return annotation denotes a generator, 402 exactly
    when no Yields section is documented and the body has a [yield], and
    403 exactly when a Yields section is documented and there is neither a
    [yield] nor a generator annotation.  401 and 402 do not exclude each
    other: without a Yields section, a generator annotation together with
    a [yield] gives both, 401 first. *)
Theorem checkYields_401_402_403
  (node : ast.node) (parent_ : option ast.node) (doc : numpydoc.NumpyDocString) :
  let vs := checkYields node parent_ doc in
  (emits 401 vs = true <->
     truthy (numpydoc.Yields doc) = false
     /\ hasGeneratorAsReturnAnnotation node = true)
  /\ (emits 402 vs = true <->
        truthy (numpydoc.Yields doc) = false /\ hasYieldStatements node = true)
  /\ (emits 403 vs = true <->
        truthy (numpydoc.Yields doc) = true
        /\ hasYieldStatements node = false
        /\ hasGeneratorAsReturnAnnotation node = false)
  /\ (truthy (numpydoc.Yields doc) = false ->
      hasGeneratorAsReturnAnnotation node = true ->
      hasYieldStatements node = true ->
      map code vs = [401; 402]%Z).
Proof.
  unfold checkYields.
  destruct (truthy (numpydoc.Yields doc)), (hasYieldStatements node),
    (hasGeneratorAsReturnAnnotation node);
    simpl; intuition congruence.
Qed.

(** What [checkRaises] reports. *)
Lemma checkRaises_501_502 node parent_ doc :
  let vs := checkRaises node parent_ doc in
  (emits 501 vs = true <->
     hasRaiseStatements node = true /\ truthy (numpydoc.Raises doc) = false)
  /\ (emits 502 vs = true <->
        hasRaiseStatements node = false /\ truthy (numpydoc.Raises doc) = true).
Proof.
  unfold checkRaises.
  destruct (truthy (numpydoc.Raises doc)), (hasRaiseStatements node);
    simpl; intuition congruence.
Qed.

(** ** One definition *)

(** Decides that a code is not in a concrete list of codes. *)
Ltac not_among :=
  let H := fresh "H" in
  simpl; intros H; repeat (destruct H as [H|H]; [discriminate |]); exact H.

(** 501 and 502 come from the raise check only. *)
Lemma definitionViolations_raise_codes self node c :
  In c [501; 502]%Z ->
  emits c (definitionViolations self node)
  = isChecked self node && negb (skipCheckingRaises self)
    && emits c (checkRaises node (parent self)
                  (NumpyDocString__init__ (workingDocstring (parent self) node))).
Proof.
  intros Hc. rewrite definitionViolations_eq. unfold isChecked. cbv zeta.
  rewrite emits_app.
  rewrite (codes_within_emits _ _ c (ownDocstringViolation_codes _ _))
    by (destruct Hc as [<-|[<-|[]]]; not_among).
  destruct (String.eqb (workingDocstring (parent self) node) ""); simpl;
    [reflexivity |].
  rewrite !emits_app.
  assert (Hret : emits c
            (if isClassConstructor (parent self) node
             then checkReturnsInClassConstructor (ast.deref (parent self))
                    (NumpyDocString__init__ (workingDocstring (parent self) node))
             else if skipCheckingShortDocstrings self
                     && isShortDocstring
                          (NumpyDocString__init__
                             (workingDocstring (parent self) node))
                  then []
                  else checkReturns node (parent self)
                         (NumpyDocString__init__
                            (workingDocstring (parent self) node))) = false).
  { destruct (isClassConstructor (parent self) node).
    - apply (codes_within_emits _ _ c (checkReturnsInClassConstructor_codes _ _)).
      destruct Hc as [<-|[<-|[]]]; not_among.
    - destruct (_ && _); [reflexivity |].
      apply (codes_within_emits _ _ c (checkReturns_codes _ _ _)).
      destruct Hc as [<-|[<-|[]]]; not_among. }
  rewrite Hret.
  destruct (skipCheckingShortDocstrings self && _); simpl; [reflexivity |].
  unfold checkArguments.
  rewrite (codes_within_emits _ _ c (validateDocArgs_codes _ _ _ _ _))
    by (destruct Hc as [<-|[<-|[]]]; not_among).
  rewrite (codes_within_emits _ _ c (checkYields_codes _ _ _))
    by (destruct Hc as [<-|[<-|[]]]; not_among).
  destruct (skipCheckingRaises self); reflexivity.
Qed.

(** C7.  With [skipCheckingRaises] set, no definition gets a 501 or a 502.
    Without it, a definition that is checked gets 501 exactly when its body
    has a [raise] and no Raises section is documented, and 502 exactly when
    a Raises section is documented and the body has no [raise]. *)
Theorem raise_check_501_502 (self : Visitor) (node : ast.node) :
  let vs := definitionViolations self node in
  let doc := NumpyDocString__init__ (workingDocstring (parent self) node) in
  if skipCheckingRaises self
  then emits 501 vs = false /\ emits 502 vs = false
  else
    isChecked self node = true ->
    (emits 501 vs = true <->
       hasRaiseStatements node = true /\ truthy (numpydoc.Raises doc) = false)
    /\ (emits 502 vs = true <->
          hasRaiseStatements node = false /\ truthy (numpydoc.Raises doc) = true).
Proof.
  intros vs doc. subst vs.
  rewrite !definitionViolations_raise_codes by (simpl; auto).
  destruct (skipCheckingRaises self); simpl.
  - rewrite !andb_false_r. split; reflexivity.
  - intros ->. simpl. apply checkRaises_501_502.
Qed.

(** C3.  For a class constructor, 201 and 202 are never reported; when the
    docstring of the class is not empty, 302 is reported exactly when that
    docstring has a Returns section, whatever the body of the constructor
    holds. *)
Theorem constructor_return_check (self : Visitor) (node : ast.node) :
  isClassConstructor (parent self) node = true ->
  let vs := definitionViolations self node in
  let classDocstring := getDocstring (ast.deref (parent self)) in
  emits 201 vs = false
  /\ emits 202 vs = false
  /\ (classDocstring <> "" ->
      emits 302 vs
      = truthy (numpydoc.Returns (NumpyDocString__init__ classDocstring))).
Proof.
  intros Hctor vs classDocstring. subst vs classDocstring.
  rewrite definitionViolations_eq. unfold workingDocstring.
  rewrite Hctor. cbv zeta.
  set (docstring := getDocstring (ast.deref (parent self))).
  set (doc := NumpyDocString__init__ docstring).
  assert (Hown : forall c, c <> 301%Z ->
            emits c (ownDocstringViolation (parent self) node) = false).
  { intros c Hc.
    apply (codes_within_emits _ _ c (ownDocstringViolation_codes _ _)).
    simpl; intuition congruence. }
  assert (Harg : forall c, ~ In c [101; 102; 103; 104; 105]%Z ->
            emits c (checkArguments self node (parent self) doc) = false).
  { intros c Hc.
    apply (codes_within_emits _ _ c (validateDocArgs_codes _ _ _ _ _) Hc). }
  assert (Hyield : forall c, ~ In c [401; 402; 403]%Z ->
            emits c (checkYields node (parent self) doc) = false).
  { intros c Hc. apply (codes_within_emits _ _ c (checkYields_codes _ _ _) Hc). }
  assert (Hraise : forall c, ~ In c [501; 502]%Z ->
            emits c (checkRaises node (parent self) doc) = false).
  { intros c Hc. apply (codes_within_emits _ _ c (checkRaises_codes _ _ _) Hc). }
  assert (Hctor_ret : forall c, c <> 302%Z ->
            emits c (checkReturnsInClassConstructor (ast.deref (parent self)) doc)
            = false).
  { intros c Hc.
    apply (codes_within_emits _ _ c (checkReturnsInClassConstructor_codes _ _)).
    simpl; intuition congruence. }
  assert (H302 : emits 302 (checkReturnsInClassConstructor
                              (ast.deref (parent self)) doc)
                 = truthy (numpydoc.Returns doc)).
  { unfold checkReturnsInClassConstructor.
    now destruct (truthy (numpydoc.Returns doc)). }
  rewrite !emits_app, !Hown by discriminate.
  split; [| split].
  - destruct (String.eqb docstring ""); [reflexivity |].
    rewrite !emits_app, Hctor_ret by discriminate.
    destruct (skipCheckingShortDocstrings self && isShortDocstring doc); simpl;
      [reflexivity |].
    rewrite Harg, Hyield by not_among.
    destruct (skipCheckingRaises self); [reflexivity |].
    now rewrite Hraise by not_among.
  - destruct (String.eqb docstring ""); [reflexivity |].
    rewrite !emits_app, Hctor_ret by discriminate.
    destruct (skipCheckingShortDocstrings self && isShortDocstring doc); simpl;
      [reflexivity |].
    rewrite Harg, Hyield by not_among.
    destruct (skipCheckingRaises self); [reflexivity |].
    now rewrite Hraise by not_among.
  - intros Hdoc. apply String.eqb_neq in Hdoc. rewrite Hdoc.
    rewrite !emits_app, H302.
    destruct (skipCheckingShortDocstrings self && isShortDocstring doc); simpl;
      [now rewrite orb_false_r |].
    rewrite Harg, Hyield by not_among.
    destruct (skipCheckingRaises self); simpl; [now rewrite orb_false_r |].
    rewrite Hraise by not_among. now rewrite orb_false_r.
Qed.

(** C4, as the code has it.  A violation recorded for a definition carries
    the source line of that definition, unless its code is 302: a 302 is
    recorded for a class constructor only and carries the source line of
    the enclosing class. *)
Theorem violation_line (self : Visitor) (node : ast.node) (v : Violation) :
  In v (definitionViolations self node) ->
  (code v <> 302%Z /\ line v = ast.lineno node)
  \/ (code v = 302%Z
      /\ isClassConstructor (parent self) node = true
      /\ line v = ast.lineno (ast.deref (parent self))).
Proof.
  rewrite definitionViolations_eq. cbv zeta. intros Hin.
  assert (Hleft : forall cs vs,
            codes_within cs vs -> reported_at (ast.lineno node) vs ->
            ~ In 302%Z cs -> In v vs ->
            code v <> 302%Z /\ line v = ast.lineno node).
  { intros cs vs Hcs Hln Hno Hv. split; [| now apply Hln].
    intros Hc. apply Hno. rewrite <- Hc. now apply Hcs. }
  apply in_app_or in Hin as [Hin|Hin].
  { left. eapply Hleft; eauto using ownDocstringViolation_codes,
      ownDocstringViolation_line. not_among. }
  destruct (String.eqb (workingDocstring (parent self) node) "");
    [contradiction |].
  apply in_app_or in Hin as [Hin|Hin].
  { left. destruct (_ && _); [contradiction |].
    unfold checkArguments in Hin.
    eapply Hleft; eauto using validateDocArgs_codes, validateDocArgs_line.
    not_among. }
  apply in_app_or in Hin as [Hin|Hin].
  { destruct (isClassConstructor (parent self) node).
    - right. split; [| split; [reflexivity |]].
      + apply checkReturnsInClassConstructor_codes in Hin.
        simpl in Hin. intuition.
      + now apply checkReturnsInClassConstructor_line in Hin.
    - left. destruct (_ && _); [contradiction |].
      eapply Hleft; eauto using checkReturns_codes, checkReturns_line.
      not_among. }
  apply in_app_or in Hin as [Hin|Hin].
  { left. destruct (_ && _); [contradiction |].
    eapply Hleft; eauto using checkYields_codes, checkYields_line. not_among. }
  left. destruct (_ || _); [contradiction |].
  eapply Hleft; eauto using checkRaises_codes, checkRaises_line. not_among.
Qed.

(** C8.  A definition whose working docstring is empty gets no violation
    from the four checks: all that is recorded for it is the 301 of a
    constructor that has a docstring of its own. *)
Theorem empty_docstring_not_checked (self : Visitor) (node : ast.node) :
  workingDocstring (parent self) node = "" ->
  let vs := definitionViolations self node in
  vs = ownDocstringViolation (parent self) node
  /\ (forall v, In v vs ->
        code v = 301%Z
        /\ isClassConstructor (parent self) node = true
        /\ getDocstring node <> "").
Proof.
  intros Hempty vs. subst vs.
  rewrite definitionViolations_eq. cbv zeta. rewrite Hempty. simpl.
  rewrite app_nil_r. split; [reflexivity |].
  unfold ownDocstringViolation. intros v Hin.
  destruct (isClassConstructor (parent self) node); simpl in Hin;
    [| contradiction].
  destruct (getDocstring node); simpl in Hin; [contradiction |].
  destruct Hin as [<-|[]]. repeat split. discriminate.
Qed.

(** C9.  The two tiers of skipping.  An empty working docstring switches
    the checks off whatever the configuration.  A short one (a one-line
    summary without sections) switches them off only under
    [skipCheckingShortDocstrings]: then nothing but a constructor's 301 is
    recorded; without the option the checks run as for any docstring. *)
Theorem short_docstring_two_tiers (self : Visitor) (node : ast.node) :
  let docstring := workingDocstring (parent self) node in
  let doc := NumpyDocString__init__ docstring in
  let vs := definitionViolations self node in
  (docstring = "" -> vs = ownDocstringViolation (parent self) node)
  /\ (docstring <> "" -> isShortDocstring doc = true ->
      if skipCheckingShortDocstrings self
      then vs = ownDocstringViolation (parent self) node
      else vs = ownDocstringViolation (parent self) node
                ++ checkArguments self node (parent self) doc
                ++ (if isClassConstructor (parent self) node
                    then checkReturnsInClassConstructor
                           (ast.deref (parent self)) doc
                    else checkReturns node (parent self) doc)
                ++ checkYields node (parent self) doc
                ++ (if skipCheckingRaises self then []
                    else checkRaises node (parent self) doc)).
Proof.
  intros docstring doc vs. subst vs.
  rewrite definitionViolations_eq. cbv zeta. fold docstring doc.
  split.
  - intros ->. simpl. now rewrite app_nil_r.
  - intros Hdoc Hshort. apply String.eqb_neq in Hdoc. rewrite Hdoc, Hshort.
    destruct (skipCheckingShortDocstrings self); simpl; [| reflexivity].
    unfold checkReturnsInClassConstructor.
    rewrite (isShortDocstring_no_Returns doc Hshort).
    destruct (isClassConstructor (parent self) node); simpl;
      now rewrite app_nil_r.
Qed.

(** ** The walk *)

(** [visit], one level unfolded. *)
Lemma visit_eq node self :
  visit node self =
  match node with
  | ast.ClassDef _ _ _ _ => visit_ClassDef (generic_visit node) node self
  | ast.FunctionDef _ _ => visit_FunctionDef (generic_visit node) node self
  | ast.AsyncFunctionDef _ _ =>
      visit_AsyncFunctionDef (generic_visit node) node self
  | ast.Raise _ => visit_Raise (generic_visit node) node self
  | ast.Generic _ _ => generic_visit node self
  end.
Proof. destruct node; reflexivity. Qed.

(** [visit_FunctionDef] records the violations of the definition, walks the
    body with the definition as parent, and restores the parent. *)
Lemma visit_FunctionDef_unfold gv node self :
  visit_FunctionDef gv node self
  = set_parent (parent self)
      (gv (violations_extend (definitionViolations self node)
             (set_parent (Some node) self))).
Proof.
  unfold definitionViolations, visit_FunctionDef.
  destruct (isClassConstructor (parent self) node) eqn:Hctor; simpl.
  - destruct (Nat.ltb 0 (String.length (getDocstring node))) eqn:Hlen; simpl;
      destruct (String.eqb (getDocstring (ast.deref (parent self))) "") eqn:Hdoc;
      simpl; try rewrite Hdoc;
      try (destruct (skipCheckingShortDocstrings self && _) eqn:Hskip; simpl);
      try (destruct (skipCheckingRaises self); simpl);
      unfold violations_extend, violations_append, violations_extend, set_parent;
      simpl; repeat rewrite <- app_assoc; try rewrite skipn_length_app;
      repeat rewrite app_nil_r; simpl; reflexivity.
  - destruct (String.eqb (getDocstring node) "") eqn:Hdoc;
      simpl; try rewrite Hdoc;
      try (destruct (skipCheckingShortDocstrings self && _) eqn:Hskip; simpl);
      try (destruct (skipCheckingRaises self); simpl);
      unfold violations_extend, set_parent;
      simpl; repeat rewrite <- app_assoc; try rewrite skipn_length_app;
      repeat rewrite app_nil_r; simpl; reflexivity.
Qed.

(** The violations of a definition do not depend on what was recorded
    before. *)
Lemma definitionViolations_prepend vs self node :
  definitionViolations (violations_prepend vs self) node
  = definitionViolations self node.
Proof. now rewrite !definitionViolations_eq. Qed.

Lemma set_parent_prepend p vs self :
  set_parent p (violations_prepend vs self)
  = violations_prepend vs (set_parent p self).
Proof. reflexivity. Qed.

Lemma violations_extend_prepend ws vs self :
  violations_extend ws (violations_prepend vs self)
  = violations_prepend vs (violations_extend ws self).
Proof.
  unfold violations_extend, violations_prepend; simpl. now rewrite app_assoc.
Qed.

(** Walking a list of children commutes with earlier records, when walking
    each child does. *)
Lemma fold_visit_prepend children :
  Forall (fun child => forall self vs,
            visit child (violations_prepend vs self)
            = violations_prepend vs (visit child self)) children ->
  forall self vs,
    fold_left (fun self child => visit child self) children
              (violations_prepend vs self)
    = violations_prepend vs
        (fold_left (fun self child => visit child self) children self).
Proof.
  induction 1 as [|child children Hchild _ IH]; intros self vs; simpl.
  - reflexivity.
  - now rewrite Hchild, IH.
Qed.

(** The walk appends to the record and reads nothing of it. *)
Lemma visit_prepend node :
  forall self vs,
    visit node (violations_prepend vs self)
    = violations_prepend vs (visit node self).
Proof.
  induction node as [node IH] using node_children_ind. intros self vs.
  pose proof (fold_visit_prepend _ IH) as Hgv.
  fold (generic_visit node) in Hgv.
  assert (Hgv' : forall self vs,
            generic_visit node (violations_prepend vs self)
            = violations_prepend vs (generic_visit node self)) by exact Hgv.
  rewrite !visit_eq.
  destruct node; unfold visit_AsyncFunctionDef, visit_ClassDef, visit_Raise;
    rewrite ?visit_FunctionDef_unfold, ?definitionViolations_prepend;
    cbn [parent violations_prepend];
    rewrite ?set_parent_prepend, ?violations_extend_prepend, ?Hgv',
      ?set_parent_prepend; reflexivity.
Qed.

Lemma fold_visit_frame children :
  Forall (fun child => forall self,
            parent (visit child self) = parent self
            /\ checkTypeHint (visit child self) = checkTypeHint self
            /\ checkArgOrder (visit child self) = checkArgOrder self
            /\ skipCheckingShortDocstrings (visit child self)
               = skipCheckingShortDocstrings self
            /\ skipCheckingRaises (visit child self) = skipCheckingRaises self)
         children ->
  forall self,
    let self' := fold_left (fun self child => visit child self) children self in
    parent self' = parent self
    /\ checkTypeHint self' = checkTypeHint self
    /\ checkArgOrder self' = checkArgOrder self
    /\ skipCheckingShortDocstrings self' = skipCheckingShortDocstrings self
    /\ skipCheckingRaises self' = skipCheckingRaises self.
Proof.
  induction 1 as [|child children Hchild _ IH]; intros self; simpl.
  - repeat split.
  - specialize (IH (visit child self)). simpl in IH.
    destruct IH as (-> & -> & -> & -> & ->). apply Hchild.
Qed.

(** The walk restores the parent and leaves the configuration alone. *)
Lemma visit_frame node :
  forall self,
    parent (visit node self) = parent self
    /\ checkTypeHint (visit node self) = checkTypeHint self
    /\ checkArgOrder (visit node self) = checkArgOrder self
    /\ skipCheckingShortDocstrings (visit node self)
       = skipCheckingShortDocstrings self
    /\ skipCheckingRaises (visit node self) = skipCheckingRaises self.
Proof.
  induction node as [node IH] using node_children_ind. intros self.
  assert (Hgv : forall self,
            parent (generic_visit node self) = parent self
            /\ checkTypeHint (generic_visit node self) = checkTypeHint self
            /\ checkArgOrder (generic_visit node self) = checkArgOrder self
            /\ skipCheckingShortDocstrings (generic_visit node self)
               = skipCheckingShortDocstrings self
            /\ skipCheckingRaises (generic_visit node self)
               = skipCheckingRaises self)
    by (intros s; apply (fold_visit_frame _ IH s)).
  rewrite !visit_eq.
  destruct node; unfold visit_AsyncFunctionDef, visit_ClassDef, visit_Raise;
    rewrite ?visit_FunctionDef_unfold;
    match goal with
    | |- context [generic_visit ?n ?s] =>
        destruct (Hgv s) as (H0 & H1 & H2 & H3 & H4)
    end;
    repeat split;
    first [reflexivity | exact H0 | exact H1 | exact H2 | exact H3 | exact H4].
Qed.

(** C10.  Two runs of the checker over the same tree, under the same
    configuration, report the same sequence of violations: the walk ends
    with the parent context it started with, and a second walk of the tree
    by the same visitor appends to its record exactly the sequence the
    first walk reported, which is also what a new visitor reports. *)
Theorem two_runs_same_violations
  (checkTypeHint checkArgOrder skipCheckingShortDocstrings skipCheckingRaises : bool)
  (tree : ast.node) :
  let report :=
    run checkTypeHint checkArgOrder skipCheckingShortDocstrings
        skipCheckingRaises tree in
  let fresh :=
    Visitor__init__ checkTypeHint checkArgOrder skipCheckingShortDocstrings
                    skipCheckingRaises in
  let first := visit tree fresh in
  violations first = report
  /\ parent first = parent fresh
  /\ violations (visit tree first) = report ++ report.
Proof.
  intros report fresh first. split; [reflexivity |].
  destruct (visit_frame tree fresh) as (Hp & Ht & Ho & Hs & Hr).
  fold first in Hp, Ht, Ho, Hs, Hr. split; [exact Hp |].
  assert (Hfirst : first = violations_prepend report fresh).
  { unfold violations_prepend. simpl. rewrite app_nil_r.
    subst report. unfold run. fold fresh first.
    destruct first; simpl in *. congruence. }
  rewrite Hfirst at 1. rewrite visit_prepend. reflexivity.
Qed.

(** ** A whole walk *)

(** The violations of a definition depend on the visitor through its
    configuration and its parent only. *)
Lemma definitionViolations_context self node :
  definitionViolations self node
  = definitionViolations
      (mkVisitor (checkTypeHint self) (checkArgOrder self)
                 (skipCheckingShortDocstrings self) (skipCheckingRaises self)
                 (parent self) []) node.
Proof. now rewrite !definitionViolations_eq. Qed.

Lemma violations_extend_app vs ws self :
  violations_extend ws (violations_extend vs self)
  = violations_extend (vs ++ ws) self.
Proof. unfold violations_extend; simpl. now rewrite app_assoc. Qed.

Lemma violations_extend_empty self : violations_extend [] self = self.
Proof. destruct self; unfold violations_extend; simpl. now rewrite app_nil_r. Qed.

(** Walking the children one after the other records their reports one
    after the other. *)
Lemma fold_visit_collect children :
  Forall (fun child => forall self,
            visit child self
            = violations_extend
                (collect (checkTypeHint self) (checkArgOrder self)
                         (skipCheckingShortDocstrings self)
                         (skipCheckingRaises self) (parent self) child) self)
         children ->
  forall self,
    fold_left (fun self child => visit child self) children self
    = violations_extend
        (flat_map (collect (checkTypeHint self) (checkArgOrder self)
                           (skipCheckingShortDocstrings self)
                           (skipCheckingRaises self) (parent self)) children)
        self.
Proof.
  induction 1 as [|child children Hchild _ IH]; intros self; simpl.
  - now rewrite violations_extend_empty.
  - rewrite Hchild, IH. cbn [checkTypeHint checkArgOrder
      skipCheckingShortDocstrings skipCheckingRaises parent violations_extend].
    apply violations_extend_app.
Qed.

(** The walk extends the record by the report of the tree. *)
Lemma visit_extends node :
  forall self,
    visit node self
    = violations_extend
        (collect (checkTypeHint self) (checkArgOrder self)
                 (skipCheckingShortDocstrings self) (skipCheckingRaises self)
                 (parent self) node) self.
Proof.
  induction node as [node IH] using node_children_ind. intros self.
  pose proof (fold_visit_collect _ IH) as Hgv.
  destruct node; simpl in Hgv |- *;
    unfold visit_AsyncFunctionDef, visit_ClassDef, visit_Raise;
    rewrite ?visit_FunctionDef_unfold, ?Hgv;
    cbn [checkTypeHint checkArgOrder skipCheckingShortDocstrings
         skipCheckingRaises parent violations_extend set_parent violations];
    rewrite <- ?definitionViolations_context;
    unfold violations_extend; simpl; rewrite ?app_assoc;
    reflexivity.
Qed.

Lemma run_collect ct ao ss sr tree :
  run ct ao ss sr tree = collect ct ao ss sr None tree.
Proof. unfold run. now rewrite visit_extends. Qed.

(** X1.  A walk of a tree leaves the configuration and the parent of the
    visitor as they were, keeps what was recorded before, and appends the
    violations of the definitions of the tree in pre-order: those of a
    definition before those of its body, those of a statement before those
    of the next one.  Classes and definitions become the parent of their
    body; every other node passes its own parent on. *)
Theorem visit_appends_preorder_report (node : ast.node) (self : Visitor) :
  let report :=
    collect (checkTypeHint self) (checkArgOrder self)
            (skipCheckingShortDocstrings self) (skipCheckingRaises self)
            (parent self) node in
  visit node self
  = mkVisitor (checkTypeHint self) (checkArgOrder self)
              (skipCheckingShortDocstrings self) (skipCheckingRaises self)
              (parent self) (violations self ++ report).
Proof. intros report. now rewrite visit_extends. Qed.

(** X2.  A visitor that walks a second tree after a first one ends with
    the report of the first tree followed by the report of the second:
    nothing of the first walk leaks into the second but the record. *)
Theorem two_trees_one_visitor (ct ao ss sr : bool) (tree1 tree2 : ast.node) :
  violations (visit tree2 (visit tree1 (Visitor__init__ ct ao ss sr)))
  = run ct ao ss sr tree1 ++ run ct ao ss sr tree2.
Proof.
  unfold run. now rewrite !visit_extends.
Qed.

Lemma flat_map_nil {A B : Type} (f : A -> list B) (l : list A) :
  Forall (fun a => f a = []) l -> flat_map f l = [].
Proof. induction 1 as [|a l Ha _ IH]; simpl; [reflexivity |]. now rewrite Ha, IH. Qed.

Lemma collect_without_definition ct ao ss sr node :
  forall parent_,
    contains_definition node = false -> collect ct ao ss sr parent_ node = [].
Proof.
  induction node as [node IH] using node_children_ind. intros parent_ Hnone.
  assert (Hchildren : forall p,
            existsb contains_definition (ast.children node) = false ->
            flat_map (collect ct ao ss sr p) (ast.children node) = []).
  { intros p Hcs. apply flat_map_nil.
    rewrite Forall_forall in IH |- *. intros child Hin. apply IH; [exact Hin |].
    destruct (contains_definition child) eqn:E; [| reflexivity].
    assert (existsb contains_definition (ast.children node) = true)
      by (apply existsb_exists; eauto).
    congruence. }
  destruct node; simpl in Hnone |- *; try discriminate; now apply Hchildren.
Qed.

(** X3.  A tree without any function definition yields no violation,
    whatever the docstrings of its classes hold: a class docstring is only
    looked at through the constructor of the class. *)
Theorem no_definition_no_violation (ct ao ss sr : bool) (tree : ast.node) :
  contains_definition tree = false -> run ct ao ss sr tree = [].
Proof.
  intros Hnone. rewrite run_collect. now apply collect_without_definition.
Qed.

(** ** Codes, lines and options over a whole walk *)

Lemma codes_within_app cs vs ws :
  codes_within cs vs -> codes_within cs ws -> codes_within cs (vs ++ ws).
Proof. intros H1 H2 v Hin. apply in_app_or in Hin as [Hin|Hin]; auto. Qed.

Lemma codes_within_incl cs cs' vs :
  incl cs cs' -> codes_within cs vs -> codes_within cs' vs.
Proof. intros Hi H v Hin. apply Hi. now apply H. Qed.

(** Inclusion of a concrete list of codes in a concrete list. *)
Ltac codes_incl :=
  let c := fresh "c" in
  let H := fresh "H" in
  intros c H; simpl in H |- *;
  repeat (destruct H as [H|H]; [subst c; auto 20 |]); contradiction.

Lemma definitionViolations_codes self node :
  codes_within violation_codes (definitionViolations self node).
Proof.
  rewrite definitionViolations_eq. cbv zeta.
  apply codes_within_app.
  { eapply codes_within_incl; [| apply ownDocstringViolation_codes]. codes_incl. }
  destruct (String.eqb _ ""); [apply codes_within_nil |].
  repeat apply codes_within_app.
  - destruct (_ && _); [apply codes_within_nil |].
    eapply codes_within_incl; [| apply validateDocArgs_codes]. codes_incl.
  - destruct (isClassConstructor _ _).
    + eapply codes_within_incl; [| apply checkReturnsInClassConstructor_codes].
      codes_incl.
    + destruct (_ && _); [apply codes_within_nil |].
      eapply codes_within_incl; [| apply checkReturns_codes]. codes_incl.
  - destruct (_ && _); [apply codes_within_nil |].
    eapply codes_within_incl; [| apply checkYields_codes]. codes_incl.
  - destruct (_ || _); [apply codes_within_nil |].
    eapply codes_within_incl; [| apply checkRaises_codes]. codes_incl.
Qed.

Lemma collect_codes ct ao ss sr node :
  forall parent_, codes_within violation_codes (collect ct ao ss sr parent_ node).
Proof.
  induction node as [node IH] using node_children_ind. intros parent_.
  assert (Hchildren : forall p,
            codes_within violation_codes
              (flat_map (collect ct ao ss sr p) (ast.children node))).
  { intros p v Hin. apply in_flat_map in Hin as [child [Hchild Hv]].
    rewrite Forall_forall in IH. exact (IH child Hchild p v Hv). }
  destruct node; simpl in Hchildren |- *;
    try apply codes_within_app; try apply definitionViolations_codes;
    apply Hchildren.
Qed.

(** X4.  Every violation of a run carries one of the fourteen codes of
    the enumeration. *)
Theorem run_codes_in_enumeration (ct ao ss sr : bool) (tree : ast.node) :
  Forall (fun v => In (code v) violation_codes) (run ct ao ss sr tree).
Proof.
  rewrite run_collect. apply Forall_forall. apply collect_codes.
Qed.

(** Where a violation of one definition is reported. *)
Lemma definitionViolations_line self node v :
  In v (definitionViolations self node) ->
  (code v <> 302%Z /\ line v = ast.lineno node)
  \/ (code v = 302%Z
      /\ ast.isinstance_ClassDef (parent self) = true
      /\ line v = ast.lineno (ast.deref (parent self))).
Proof.
  rewrite definitionViolations_eq. cbv zeta. intros Hin.
  assert (Hleft : forall cs vs,
            codes_within cs vs -> reported_at (ast.lineno node) vs ->
            ~ In 302%Z cs -> In v vs ->
            code v <> 302%Z /\ line v = ast.lineno node).
  { intros cs vs Hcs Hln Hno Hv. split; [| now apply Hln].
    intros Hc. apply Hno. rewrite <- Hc. now apply Hcs. }
  apply in_app_or in Hin as [Hin|Hin].
  { left. eapply Hleft; eauto using ownDocstringViolation_codes,
      ownDocstringViolation_line. not_among. }
  destruct (String.eqb (workingDocstring (parent self) node) "");
    [contradiction |].
  apply in_app_or in Hin as [Hin|Hin].
  { left. destruct (_ && _); [contradiction |].
    unfold checkArguments in Hin.
    eapply Hleft; eauto using validateDocArgs_codes, validateDocArgs_line.
    not_among. }
  apply in_app_or in Hin as [Hin|Hin].
  { destruct (isClassConstructor (parent self) node) eqn:Hctor.
    - right. apply andb_prop in Hctor as [_ Hclass].
      split; [| split; [exact Hclass |]].
      + apply checkReturnsInClassConstructor_codes in Hin.
        simpl in Hin. intuition.
      + now apply checkReturnsInClassConstructor_line in Hin.
    - left. destruct (_ && _); [contradiction |].
      eapply Hleft; eauto using checkReturns_codes, checkReturns_line.
      not_among. }
  apply in_app_or in Hin as [Hin|Hin].
  { left. destruct (_ && _); [contradiction |].
    eapply Hleft; eauto using checkYields_codes, checkYields_line. not_among. }
  left. destruct (_ || _); [contradiction |].
  eapply Hleft; eauto using checkRaises_codes, checkRaises_line. not_among.
Qed.

Lemma subnodes_self node : In node (subnodes node).
Proof. destruct node; simpl; auto. Qed.

Lemma subnodes_child node child n :
  In child (ast.children node) -> In n (subnodes child) -> In n (subnodes node).
Proof.
  intros Hchild Hn.
  assert (In n (flat_map subnodes (ast.children node)))
    by (apply in_flat_map; eauto).
  destruct node; simpl in *; auto.
Qed.

(** Where the violations of a walk are reported: at a definition of the
    tree; a 302 at a class of the tree or at the class the walk started
    in. *)
Lemma collect_line ct ao ss sr node :
  forall parent_ v,
    In v (collect ct ao ss sr parent_ node) ->
    (code v <> 302%Z
     /\ exists n, In n (subnodes node) /\ is_definition n = true
                  /\ line v = ast.lineno n)
    \/ (code v = 302%Z
        /\ ((ast.isinstance_ClassDef parent_ = true
             /\ line v = ast.lineno (ast.deref parent_))
            \/ exists c, In c (subnodes node)
                         /\ ast.isinstance_ClassDef (Some c) = true
                         /\ line v = ast.lineno c)).
Proof.
  induction node as [node IH] using node_children_ind. intros parent_ v Hin.
  rewrite Forall_forall in IH.
  (* a violation of the body, walked with parent [p] *)
  assert (Hbody : forall p,
            In v (flat_map (collect ct ao ss sr p) (ast.children node)) ->
            (p = parent_ \/ (p = Some node /\ In node (subnodes node))) ->
            (code v <> 302%Z
             /\ exists n, In n (subnodes node) /\ is_definition n = true
                          /\ line v = ast.lineno n)
            \/ (code v = 302%Z
                /\ ((ast.isinstance_ClassDef parent_ = true
                     /\ line v = ast.lineno (ast.deref parent_))
                    \/ exists c, In c (subnodes node)
                                 /\ ast.isinstance_ClassDef (Some c) = true
                                 /\ line v = ast.lineno c))).
  { intros p Hv Hp. apply in_flat_map in Hv as [child [Hchild Hv]].
    destruct (IH child Hchild p v Hv)
      as [[Hc [n [Hn [Hdef Hl]]]] | [Hc [[Hcls Hl] | [c [Hcin [Hcls Hl]]]]]].
    - left. split; [exact Hc |]. exists n.
      split; [eapply subnodes_child; eauto | auto].
    - right. split; [exact Hc |].
      destruct Hp as [-> | [-> Hself]].
      + left. auto.
      + right. exists node. simpl in Hl. auto.
    - right. split; [exact Hc |]. right. exists c.
      split; [eapply subnodes_child; eauto | auto]. }
  pose proof (subnodes_self node) as Hself.
  destruct node; simpl in Hin; simpl in Hbody.
  - apply (Hbody _ Hin). right. auto.
  - apply in_app_or in Hin as [Hin|Hin].
    + apply definitionViolations_line in Hin as [[Hc Hl] | [Hc [Hcls Hl]]].
      * left. split; [exact Hc |]. exists (ast.FunctionDef sig body). auto.
      * right. split; [exact Hc |]. left. auto.
    + apply (Hbody _ Hin). right. auto.
  - apply in_app_or in Hin as [Hin|Hin].
    + apply definitionViolations_line in Hin as [[Hc Hl] | [Hc [Hcls Hl]]].
      * left. split; [exact Hc |]. exists (ast.AsyncFunctionDef sig body). auto.
      * right. split; [exact Hc |]. left. auto.
    + apply (Hbody _ Hin). right. auto.
  - apply (Hbody _ Hin). left. reflexivity.
  - apply (Hbody _ Hin). left. reflexivity.
Qed.

(** X5.  Every violation of a run is located in the tree: its line is the
    line of a function definition of the tree, or, for a 302 and only for
    it, the line of a class of the tree. *)
Theorem run_lines_in_tree (ct ao ss sr : bool) (tree : ast.node) (v : Violation) :
  In v (run ct ao ss sr tree) ->
  exists n,
    In n (subnodes tree)
    /\ line v = ast.lineno n
    /\ (if Z.eqb (code v) 302 then ast.isinstance_ClassDef (Some n)
        else is_definition n) = true.
Proof.
  rewrite run_collect. intros Hin.
  apply collect_line in Hin
    as [[Hc [n [Hn [Hdef Hl]]]] | [Hc [[Hcls _] | [c [Hcin [Hcls Hl]]]]]].
  - exists n. apply Z.eqb_neq in Hc. rewrite Hc. auto.
  - discriminate Hcls.
  - exists c. rewrite Hc. simpl. auto.
Qed.

Lemma filter_not_raise cs vs :
  codes_within cs vs -> ~ In 501%Z cs -> ~ In 502%Z cs ->
  filter not_raise_violation vs = vs.
Proof.
  intros Hcs H501 H502. induction vs as [|v vs IH]; simpl; [reflexivity |].
  assert (Hv : In (code v) cs) by (apply Hcs; left; reflexivity).
  unfold not_raise_violation at 1.
  destruct (Z.eqb_spec (code v) 501) as [E|_]; [rewrite E in Hv; contradiction |].
  destruct (Z.eqb_spec (code v) 502) as [E|_]; [rewrite E in Hv; contradiction |].
  simpl. f_equal. apply IH. intros w Hw. apply Hcs. now right.
Qed.

Lemma filter_checkRaises node parent_ doc :
  filter not_raise_violation (checkRaises node parent_ doc) = [].
Proof.
  unfold checkRaises.
  destruct (hasRaiseStatements node), (truthy (numpydoc.Raises doc)); reflexivity.
Qed.

Lemma definitionViolations_skip_raises ct ao ss p vs vs' node :
  definitionViolations (mkVisitor ct ao ss true p vs) node
  = filter not_raise_violation
      (definitionViolations (mkVisitor ct ao ss false p vs') node).
Proof.
  rewrite !definitionViolations_eq.
  cbn [parent skipCheckingShortDocstrings skipCheckingRaises].
  cbv zeta. rewrite filter_app.
  rewrite (filter_not_raise _ _ (ownDocstringViolation_codes _ _)) by not_among.
  f_equal.
  destruct (String.eqb (workingDocstring p node) ""); [reflexivity |].
  rewrite !filter_app. unfold checkArguments.
  destruct (isClassConstructor p node); destruct (ss && _); simpl;
    rewrite ?(filter_not_raise _ _ (validateDocArgs_codes _ _ _ _ _)) by not_among;
    rewrite ?(filter_not_raise _ _ (checkReturnsInClassConstructor_codes _ _))
      by not_among;
    rewrite ?(filter_not_raise _ _ (checkReturns_codes _ _ _)) by not_among;
    rewrite ?(filter_not_raise _ _ (checkYields_codes _ _ _)) by not_among;
    rewrite ?filter_checkRaises; reflexivity.
Qed.

Lemma filter_flat_map {A B : Type} (p : B -> bool) (f g : A -> list B) l :
  Forall (fun a => f a = filter p (g a)) l ->
  flat_map f l = filter p (flat_map g l).
Proof.
  induction 1 as [|a l Ha _ IH]; simpl; [reflexivity |].
  now rewrite filter_app, Ha, IH.
Qed.

Lemma collect_skip_raises ct ao ss node :
  forall parent_,
    collect ct ao ss true parent_ node
    = filter not_raise_violation (collect ct ao ss false parent_ node).
Proof.
  induction node as [node IH] using node_children_ind. intros parent_.
  assert (Hchildren : forall p,
            flat_map (collect ct ao ss true p) (ast.children node)
            = filter not_raise_violation
                (flat_map (collect ct ao ss false p) (ast.children node))).
  { intros p. apply filter_flat_map.
    rewrite Forall_forall in IH |- *. intros child Hin. now apply IH. }
  destruct node; simpl in Hchildren |- *; rewrite ?filter_app, ?Hchildren;
    try reflexivity;
    now rewrite (definitionViolations_skip_raises ct ao ss parent_ [] []).
Qed.

(** X6.  [skipCheckingRaises] does nothing but drop the 501 and 502: the
    report of a run with the option set is the report of the run without
    it, with these two codes filtered out and all else in place. *)
Theorem skipCheckingRaises_filters_501_502 (ct ao ss : bool) (tree : ast.node) :
  run ct ao ss true tree
  = filter not_raise_violation (run ct ao ss false tree).
Proof. rewrite !run_collect. apply collect_skip_raises. Qed.

Lemma definitionViolations_skip_short ct ao sr p vs vs' node :
  incl (definitionViolations (mkVisitor ct ao true sr p vs) node)
       (definitionViolations (mkVisitor ct ao false sr p vs') node).
Proof.
  rewrite !definitionViolations_eq.
  cbn [parent skipCheckingShortDocstrings skipCheckingRaises]. cbv zeta.
  apply incl_app_app; [apply incl_refl |].
  destruct (String.eqb (workingDocstring p node) ""); [apply incl_refl |].
  destruct (isShortDocstring _); simpl; [| apply incl_refl].
  apply incl_appr.
  destruct (isClassConstructor p node).
  - apply incl_app_app; [apply incl_refl | apply incl_nil_l].
  - apply incl_nil_l.
Qed.

Lemma incl_flat_map {A B : Type} (f g : A -> list B) l :
  Forall (fun a => incl (f a) (g a)) l -> incl (flat_map f l) (flat_map g l).
Proof.
  induction 1 as [|a l Ha _ IH]; simpl; [apply incl_refl |].
  now apply incl_app_app.
Qed.

Lemma collect_skip_short ct ao sr node :
  forall parent_,
    incl (collect ct ao true sr parent_ node) (collect ct ao false sr parent_ node).
Proof.
  induction node as [node IH] using node_children_ind. intros parent_.
  assert (Hchildren : forall p,
            incl (flat_map (collect ct ao true sr p) (ast.children node))
                 (flat_map (collect ct ao false sr p) (ast.children node))).
  { intros p. apply incl_flat_map.
    rewrite Forall_forall in IH |- *. intros child Hin. now apply IH. }
  destruct node; simpl in Hchildren |- *;
    try apply incl_app_app; try apply definitionViolations_skip_short;
    apply Hchildren.
Qed.

(** X7.  [skipCheckingShortDocstrings] never adds a violation: whatever a
    run reports with the option set, the run without it reports too. *)
Theorem skipCheckingShortDocstrings_only_removes
  (ct ao sr : bool) (tree : ast.node) :
  incl (run ct ao true sr tree) (run ct ao false sr tree).
Proof. rewrite !run_collect. apply collect_skip_short. Qed.

(** ** More on one definition *)

(** X8.  301 and 302 are for class constructors only.  A definition gets a
    301 exactly when it is a class constructor with a docstring of its own,
    whatever the configuration and the docstring of the class; it gets a
    302 exactly when it is a class constructor whose class has a docstring
    with a Returns section. *)
Theorem constructor_codes_301_302 (self : Visitor) (node : ast.node) :
  let vs := definitionViolations self node in
  let docstring := workingDocstring (parent self) node in
  emits 301 vs
  = isClassConstructor (parent self) node
    && Nat.ltb 0 (String.length (getDocstring node))
  /\ emits 302 vs
     = isClassConstructor (parent self) node
       && negb (String.eqb docstring "")
       && truthy (numpydoc.Returns (NumpyDocString__init__ docstring)).
Proof.
  intros vs docstring. subst vs docstring.
  rewrite definitionViolations_eq. cbv zeta.
  unfold ownDocstringViolation, checkArguments.
  destruct (isClassConstructor (parent self) node);
    destruct (Nat.ltb 0 (String.length (getDocstring node)));
    destruct (String.eqb (workingDocstring (parent self) node) "");
    try destruct (skipCheckingShortDocstrings self && _);
    try destruct (skipCheckingRaises self);
    cbn [andb orb negb]; rewrite ?emits_app;
    rewrite ?(codes_within_emits _ _ _ (validateDocArgs_codes _ _ _ _ _))
      by not_among;
    rewrite ?(codes_within_emits _ _ _ (checkReturns_codes _ _ _)) by not_among;
    rewrite ?(codes_within_emits _ _ _ (checkYields_codes _ _ _)) by not_among;
    rewrite ?(codes_within_emits _ _ _ (checkRaises_codes _ _ _)) by not_among;
    rewrite ?(codes_within_emits _ _ 301%Z
                (checkReturnsInClassConstructor_codes _ _)) by not_among;
    unfold checkReturnsInClassConstructor;
    try destruct (truthy (numpydoc.Returns _));
    simpl; split; reflexivity.
Qed.

(** X9.  The relaxations follow the configuration: with [checkArgOrder]
    unset [validateDocArgs] never returns a 104, and with [checkTypeHint]
    unset it never returns a 105. *)
Theorem relaxation_codes_need_option
  (self : Visitor) (docArgList : list numpydoc.DocParameter)
  (actualArgs : list ast.arg_node) (node : ast.node) (msgPrefix : string) :
  let vs := validateDocArgs self docArgList actualArgs node msgPrefix in
  (emits 104 vs = true -> checkArgOrder self = true)
  /\ (emits 105 vs = true -> checkTypeHint self = true).
Proof.
  unfold validateDocArgs.
  destruct (_ && _); [split; discriminate |].
  destruct (checkArgOrder self), (checkTypeHint self);
    destruct (Nat.ltb _ _); destruct (Nat.ltb _ _);
    repeat case_equals; cbn [negb app emits existsb code Z.eqb Pos.eqb orb];
    split; intros H; first [reflexivity | discriminate H].
Qed.

(** ** The order of the violations of a definition *)

Lemma ascending_within_nil lo hi : ascending_within lo hi [].
Proof. split; constructor. Qed.

Lemma ascending_within_app lo1 hi1 lo2 hi2 cs1 cs2 :
  ascending_within lo1 hi1 cs1 -> ascending_within lo2 hi2 cs2 ->
  (lo1 <= hi1 < lo2)%Z -> (lo2 <= hi2)%Z ->
  ascending_within lo1 hi2 (cs1 ++ cs2).
Proof.
  intros [S1 F1] [S2 F2] H12 H2. split.
  - induction cs1 as [|c cs1 IH]; simpl; [exact S2 |].
    apply StronglySorted_inv in S1 as [S1 Hc].
    apply Forall_inv_tail in F1 as F1'. apply Forall_inv in F1 as [Hr _].
    constructor; [now apply IH |].
    apply Forall_app. split; [exact Hc |].
    rewrite Forall_forall in F2 |- *. intros d Hd.
    destruct (F2 d Hd) as [Hd' _]. lia.
  - apply Forall_app. split.
    + rewrite Forall_forall in F1 |- *. intros c Hc.
      destruct (F1 c Hc). split; [lia | assumption].
    + rewrite Forall_forall in F2 |- *. intros c Hc.
      destruct (F2 c Hc). split; [lia | assumption].
Qed.

(** Closes [ascending_within] on a concrete list of codes. *)
Ltac ascending := split; repeat (constructor || lia).

Lemma validateDocArgs_ascending self docArgList actualArgs node msgPrefix :
  ascending_within 101 105
    (map code (validateDocArgs self docArgList actualArgs node msgPrefix)).
Proof.
  unfold validateDocArgs.
  destruct (_ && _); [apply ascending_within_nil |].
  destruct (Nat.ltb _ _); destruct (Nat.ltb _ _);
    repeat case_equals; cbn [negb app map code]; ascending.
Qed.

Lemma checkReturns_ascending node parent_ doc :
  ascending_within 201 302 (map code (checkReturns node parent_ doc)).
Proof.
  unfold checkReturns.
  destruct (truthy _), (hasReturnStatements node), (hasReturnAnnotation node),
    (hasGeneratorAsReturnAnnotation node); simpl; ascending.
Qed.

Lemma checkReturnsInClassConstructor_ascending cls doc :
  ascending_within 201 302 (map code (checkReturnsInClassConstructor cls doc)).
Proof.
  unfold checkReturnsInClassConstructor. destruct (truthy _); simpl; ascending.
Qed.

Lemma checkYields_ascending node parent_ doc :
  ascending_within 401 403 (map code (checkYields node parent_ doc)).
Proof.
  unfold checkYields.
  destruct (truthy _), (hasYieldStatements node),
    (hasGeneratorAsReturnAnnotation node); simpl; ascending.
Qed.

Lemma checkRaises_ascending node parent_ doc :
  ascending_within 501 502 (map code (checkRaises node parent_ doc)).
Proof.
  unfold checkRaises.
  destruct (truthy _), (hasRaiseStatements node); simpl; ascending.
Qed.

(** X10.  The codes recorded for one definition come in a fixed order and
    none comes twice: an optional 301 first, then codes that increase
    strictly (arguments, returns, yields, raises), none of them 301. *)
Theorem definition_codes_ascending (self : Visitor) (node : ast.node) :
  exists rest,
    map code (definitionViolations self node)
    = map code (ownDocstringViolation (parent self) node) ++ rest
    /\ (map code (ownDocstringViolation (parent self) node) = []
        \/ map code (ownDocstringViolation (parent self) node) = [301%Z])
    /\ StronglySorted Z.lt rest
    /\ Forall (fun c => c <> 301%Z) rest.
Proof.
  rewrite definitionViolations_eq. cbv zeta. rewrite map_app.
  eexists. split; [reflexivity |]. split.
  { unfold ownDocstringViolation. destruct (_ && _); simpl; auto. }
  assert (H : ascending_within 101 502
            (map code
               (if String.eqb (workingDocstring (parent self) node) "" then []
                else
                  (if skipCheckingShortDocstrings self
                      && isShortDocstring
                           (NumpyDocString__init__
                              (workingDocstring (parent self) node))
                   then []
                   else checkArguments self node (parent self)
                          (NumpyDocString__init__
                             (workingDocstring (parent self) node))) ++
                  (if isClassConstructor (parent self) node
                   then checkReturnsInClassConstructor (ast.deref (parent self))
                          (NumpyDocString__init__
                             (workingDocstring (parent self) node))
                   else
                     if skipCheckingShortDocstrings self
                        && isShortDocstring
                             (NumpyDocString__init__
                                (workingDocstring (parent self) node))
                     then []
                     else checkReturns node (parent self)
                            (NumpyDocString__init__
                               (workingDocstring (parent self) node))) ++
                  (if skipCheckingShortDocstrings self
                      && isShortDocstring
                           (NumpyDocString__init__
                              (workingDocstring (parent self) node))
                   then []
                   else checkYields node (parent self)
                          (NumpyDocString__init__
                             (workingDocstring (parent self) node))) ++
                  (if skipCheckingShortDocstrings self
                      && isShortDocstring
                           (NumpyDocString__init__
                              (workingDocstring (parent self) node))
                      || skipCheckingRaises self
                   then []
                   else checkRaises node (parent self)
                          (NumpyDocString__init__
                             (workingDocstring (parent self) node)))))).
  { destruct (String.eqb _ ""); [apply ascending_within_nil |].
    rewrite !map_app.
    apply (ascending_within_app 101 105 201 502); try lia.
    { destruct (_ && _); [apply ascending_within_nil |].
      apply validateDocArgs_ascending. }
    apply (ascending_within_app 201 302 401 502); try lia.
    { destruct (isClassConstructor _ _);
        [apply checkReturnsInClassConstructor_ascending |].
      destruct (_ && _); [apply ascending_within_nil |].
      apply checkReturns_ascending. }
    apply (ascending_within_app 401 403 501 502); try lia.
    { destruct (_ && _); [apply ascending_within_nil |].
      apply checkYields_ascending. }
    destruct (_ || _); [apply ascending_within_nil |].
    apply checkRaises_ascending. }
  destruct H as [Hs Hf]. split; [exact Hs |].
  rewrite Forall_forall in Hf |- *. intros c Hc. now destruct (Hf c Hc).
Qed.

(** X11.  The implicit first parameter.  With no documented parameter, an
    instance or class method that declares no more than its implicit first
    parameter gets no argument violation (an empty parameter list is sliced
    without harm); a definition that is not such a method and declares a
    parameter gets a 101. *)
Theorem checkArguments_implicit_first_parameter
  (self : Visitor) (node : ast.node) (parent_ : option ast.node)
  (doc : numpydoc.NumpyDocString) :
  numpydoc.Parameters doc = [] ->
  let drops :=
    ast.isinstance_ClassDef parent_
    && is_instance_or_class_method (detectMethodType node) in
  (drops = true -> (List.length (ast.args_of node) <= 1)%nat ->
   checkArguments self node parent_ doc = [])
  /\ (drops = false -> ast.args_of node <> [] ->
      emits 101 (checkArguments self node parent_ doc) = true).
Proof.
  intros Hdoc drops. subst drops. unfold checkArguments. rewrite Hdoc. split.
  - intros Hdrops Hlen. apply andb_prop in Hdrops as [-> ->].
    unfold validateDocArgs, ArgList.length. rewrite !length_map.
    destruct (ast.args_of node) as [|a [|b l]]; simpl in Hlen |- *;
      [reflexivity | reflexivity | lia].
  - intros Hdrops Hargs.
    match goal with
    | |- emits 101 (validateDocArgs ?s ?d ?a ?n ?m) = true =>
        destruct (validateDocArgs_counts s d a n m) as [-> _];
        assert (Ha : a = ast.args_of node)
    end.
    { destruct (ast.isinstance_ClassDef parent_); [| reflexivity].
      simpl in Hdrops. now rewrite Hdrops. }
    rewrite Ha. destruct (ast.args_of node); [contradiction | reflexivity].
Qed.

(** X12.  What the checks never return together: [checkReturns] and
    [checkRaises] return at most one violation each (201 excludes 202, 501
    excludes 502), and [checkYields] at most two, a 403 alone or 401 and
    402. *)
Theorem checks_exclusive
  (node : ast.node) (parent_ : option ast.node) (doc : numpydoc.NumpyDocString) :
  (List.length (checkReturns node parent_ doc) <= 1)%nat
  /\ (List.length (checkRaises node parent_ doc) <= 1)%nat
  /\ (List.length (checkYields node parent_ doc) <= 2)%nat
  /\ emits 403 (checkYields node parent_ doc)
     && (emits 401 (checkYields node parent_ doc)
         || emits 402 (checkYields node parent_ doc)) = false.
Proof.
  unfold checkReturns, checkRaises, checkYields.
  destruct (truthy (numpydoc.Returns doc)), (truthy (numpydoc.Raises doc)),
    (truthy (numpydoc.Yields doc)), (hasReturnStatements node),
    (hasReturnAnnotation node), (hasGeneratorAsReturnAnnotation node),
    (hasYieldStatements node), (hasRaiseStatements node);
    simpl; repeat split; lia.
Qed.

End Properties.

(** * The properties on concrete trees *)

(** The violations reported for [Reference.module_] under the default
    configuration, and when short docstrings are checked too. *)
Example run_module_default :
  run (collaborators := Reference.collaborators) true true true false
      Reference.module_
  = [mkViolation 302 1 "Class `Point`:" "";
     mkViolation 301 8 "Class `Bare`:" "";
     mkViolation 104 12 "Function `add`:" ""].
Proof. vm_compute. reflexivity. Qed.

Example run_module_checks_short :
  map code (run (collaborators := Reference.collaborators) true true false false
                Reference.module_)
  = [302; 301; 104; 401; 402; 501]%Z.
Proof. vm_compute. reflexivity. Qed.

(** Documented [b, a] against declared [a, b]: only the order is wrong. *)
Example validateDocArgs_swapped :
  map code
    (validateDocArgs (collaborators := Reference.collaborators) Visitor_default
       [numpydoc.mk_DocParameter "b" "int" []; numpydoc.mk_DocParameter "a" "int" []]
       [ast.mk_arg "a" (Some "int"); ast.mk_arg "b" (Some "int")]
       Reference.def_add "Function `add`:")
  = [104]%Z.
Proof. vm_compute. reflexivity. Qed.

(** Documented [a : str] against declared [a: int, b: int]: a parameter is
    missing and nothing relaxes the comparison. *)
Example validateDocArgs_missing :
  validateDocArgs (collaborators := Reference.collaborators) Visitor_default
    [numpydoc.mk_DocParameter "a" "str" []]
    [ast.mk_arg "a" (Some "int"); ast.mk_arg "b" (Some "int")]
    Reference.def_add "Function `add`:"
  = [mkViolation 101 12 "Function `add`:" "";
     mkViolation 103 12 "Function `add`:"
       "Arguments in the function signature but not in the docstring: [a, b]. Arguments in the docstring but not in the function signature: [a]."].
Proof. vm_compute. reflexivity. Qed.

(** C2, refuted as stated: no call of [validateDocArgs], whatever the two
    counts, returns both 101 and 102. *)
Lemma no_call_emits_101_and_102 :
  ~ exists (collaborators : Collaborators) (self : Visitor)
      (docArgList : list numpydoc.DocParameter) (actualArgs : list ast.arg_node)
      (node : ast.node) (msgPrefix : string),
      List.length docArgList <> List.length actualArgs
      /\ emits 101 (validateDocArgs self docArgList actualArgs node msgPrefix) = true
      /\ emits 102 (validateDocArgs self docArgList actualArgs node msgPrefix) = true.
Proof.
  intros (C & self & docArgList & actualArgs & node & msgPrefix & _ & H101 & H102).
  destruct (validateDocArgs_counts self docArgList actualArgs node msgPrefix)
    as [E101 E102].
  rewrite E101 in H101. rewrite E102 in H102.
  apply Nat.ltb_lt in H101, H102. lia.
Qed.

(** C4, refuted as stated: the 302 recorded while the constructor at line 2
    is under review carries line 1, the line of its class. *)
Lemma line_of_302_is_not_the_definition_line :
  ~ (forall v,
       In v (definitionViolations (collaborators := Reference.collaborators)
               Reference.in_Point Reference.init_of_Point) ->
       line v = ast.lineno Reference.init_of_Point).
Proof.
  intros H.
  specialize (H (mkViolation 302 1 "Class `Point`:" "")).
  assert (Hin : In (mkViolation 302 1 "Class `Point`:" "")
                  (definitionViolations (collaborators := Reference.collaborators)
                     Reference.in_Point Reference.init_of_Point))
    by (vm_compute; left; reflexivity).
  apply H in Hin. discriminate Hin.
Qed.

(** The constructor of [Point]: its class docstring has a Returns section,
    so 302 is recorded and 201 is not. *)
Lemma constructor_return_check_witness :
  isClassConstructor (parent Reference.in_Point) Reference.init_of_Point = true
  /\ emits 201 (definitionViolations (collaborators := Reference.collaborators)
                  Reference.in_Point Reference.init_of_Point) = false
  /\ emits 302 (definitionViolations (collaborators := Reference.collaborators)
                  Reference.in_Point Reference.init_of_Point) = true.
Proof.
  destruct (constructor_return_check (collaborators := Reference.collaborators)
              Reference.in_Point Reference.init_of_Point eq_refl)
    as (H201 & _ & H302).
  split; [reflexivity | split; [exact H201 |]].
  rewrite H302; [reflexivity |].
  intros E. vm_compute in E. discriminate E.
Defined.

(** The 104 of [add] is reported at line 12, where [add] is defined. *)
Lemma violation_line_witness :
  In (mkViolation 104 12 "Function `add`:" "")
     (definitionViolations (collaborators := Reference.collaborators)
        Visitor_default Reference.def_add)
  /\ line (mkViolation 104 12 "Function `add`:" "")
     = ast.lineno Reference.def_add.
Proof.
  assert (Hin : In (mkViolation 104 12 "Function `add`:" "")
                  (definitionViolations (collaborators := Reference.collaborators)
                     Visitor_default Reference.def_add))
    by (vm_compute; left; reflexivity).
  split; [exact Hin |].
  destruct (violation_line (collaborators := Reference.collaborators)
              Visitor_default Reference.def_add _ Hin) as [[_ Hl] | [Hc _]].
  - exact Hl.
  - discriminate Hc.
Defined.

(** [count] has a generator annotation and a [yield] but no Yields section:
    401 and 402 together. *)
Lemma checkYields_401_402_403_witness :
  truthy (numpydoc.Yields (Reference.parse Reference.doc_short)) = false
  /\ Reference.hasGeneratorAsReturnAnnotation Reference.def_count = true
  /\ Reference.hasYieldStatements Reference.def_count = true
  /\ map code (checkYields (collaborators := Reference.collaborators)
                 Reference.def_count None (Reference.parse Reference.doc_short))
     = [401; 402]%Z.
Proof.
  destruct (checkYields_401_402_403 (collaborators := Reference.collaborators)
              Reference.def_count None (Reference.parse Reference.doc_short))
    as (_ & _ & _ & Hboth).
  split; [reflexivity | split; [reflexivity | split; [reflexivity |]]].
  apply Hboth; reflexivity.
Defined.

(** [count] raises and documents no exception: 501 when the raises are
    checked, nothing under [skipCheckingRaises]. *)
Lemma raise_check_501_502_witness :
  skipCheckingRaises Reference.checks_short = false
  /\ isChecked (collaborators := Reference.collaborators)
       Reference.checks_short Reference.def_count = true
  /\ emits 501 (definitionViolations (collaborators := Reference.collaborators)
                  Reference.checks_short Reference.def_count) = true
  /\ emits 501 (definitionViolations (collaborators := Reference.collaborators)
                  Reference.checks_short_no_raises Reference.def_count) = false.
Proof.
  split; [reflexivity | split; [reflexivity | split]].
  - apply (proj1 (raise_check_501_502 (collaborators := Reference.collaborators)
                    Reference.checks_short Reference.def_count eq_refl)).
    split; reflexivity.
  - apply (proj1 (raise_check_501_502 (collaborators := Reference.collaborators)
                    Reference.checks_short_no_raises Reference.def_count)).
Defined.

(** [Bare] has no docstring and its constructor has one: only the 301. *)
Lemma empty_docstring_not_checked_witness :
  workingDocstring (parent Reference.in_Bare) Reference.init_of_Bare = ""
  /\ definitionViolations (collaborators := Reference.collaborators)
       Reference.in_Bare Reference.init_of_Bare
     = [mkViolation 301 8 "Class `Bare`:" ""].
Proof.
  split; [reflexivity |].
  rewrite (proj1 (empty_docstring_not_checked
                    (collaborators := Reference.collaborators)
                    Reference.in_Bare Reference.init_of_Bare eq_refl)).
  reflexivity.
Defined.

(** [count] has a one-line docstring: nothing is recorded by default, and
    the checks run when short docstrings are checked. *)
Lemma short_docstring_two_tiers_witness :
  workingDocstring None Reference.def_count <> ""
  /\ isShortDocstring (Reference.parse Reference.doc_short) = true
  /\ definitionViolations (collaborators := Reference.collaborators)
       Visitor_default Reference.def_count = []
  /\ map code (definitionViolations (collaborators := Reference.collaborators)
                 Reference.checks_short Reference.def_count)
     = [401; 402; 501]%Z.
Proof.
  assert (Hdoc : workingDocstring None Reference.def_count <> "")
    by (intros E; vm_compute in E; discriminate E).
  split; [exact Hdoc | split; [reflexivity | split]].
  - rewrite (proj2 (short_docstring_two_tiers
                      (collaborators := Reference.collaborators)
                      Visitor_default Reference.def_count) Hdoc eq_refl).
    reflexivity.
  - rewrite (proj2 (short_docstring_two_tiers
                      (collaborators := Reference.collaborators)
                      Reference.checks_short Reference.def_count) Hdoc eq_refl).
    reflexivity.
Defined.

(** A class with a Returns section in its docstring and no method: nothing
    is reported. *)
Lemma no_definition_no_violation_witness :
  contains_definition Reference.class_Empty = false
  /\ run (collaborators := Reference.collaborators) true true true false
       Reference.class_Empty = [].
Proof.
  split; [reflexivity |].
  apply (no_definition_no_violation (collaborators := Reference.collaborators)).
  reflexivity.
Defined.

(** The 302 of [Reference.module_] is reported at line 1, the line of the
    class [Point] of the tree. *)
Lemma run_lines_in_tree_witness :
  In (mkViolation 302 1 "Class `Point`:" "")
     (run (collaborators := Reference.collaborators) true true true false
          Reference.module_)
  /\ exists n,
       In n (subnodes Reference.module_)
       /\ 1%Z = ast.lineno n
       /\ ast.isinstance_ClassDef (Some n) = true.
Proof.
  assert (Hin : In (mkViolation 302 1 "Class `Point`:" "")
                  (run (collaborators := Reference.collaborators)
                       true true true false Reference.module_))
    by (vm_compute; left; reflexivity).
  split; [exact Hin |].
  exact (run_lines_in_tree (collaborators := Reference.collaborators)
           true true true false Reference.module_ _ Hin).
Defined.

(** Swapped parameters give a 104 and a wrong type gives a 105, under the
    default configuration, which checks both. *)
Lemma relaxation_codes_need_option_witness :
  emits 104
    (validateDocArgs (collaborators := Reference.collaborators) Visitor_default
       [numpydoc.mk_DocParameter "b" "int" []; numpydoc.mk_DocParameter "a" "int" []]
       [ast.mk_arg "a" (Some "int"); ast.mk_arg "b" (Some "int")]
       Reference.def_add "Function `add`:") = true
  /\ emits 105
       (validateDocArgs (collaborators := Reference.collaborators) Visitor_default
          [numpydoc.mk_DocParameter "a" "str" []]
          [ast.mk_arg "a" (Some "int")]
          Reference.def_add "Function `add`:") = true
  /\ checkArgOrder Visitor_default = true
  /\ checkTypeHint Visitor_default = true.
Proof.
  split; [reflexivity | split; [reflexivity | split]].
  - apply (proj1 (relaxation_codes_need_option
                    (collaborators := Reference.collaborators) Visitor_default
                    [numpydoc.mk_DocParameter "b" "int" [];
                     numpydoc.mk_DocParameter "a" "int" []]
                    [ast.mk_arg "a" (Some "int"); ast.mk_arg "b" (Some "int")]
                    Reference.def_add "Function `add`:")).
    reflexivity.
  - apply (proj2 (relaxation_codes_need_option
                    (collaborators := Reference.collaborators) Visitor_default
                    [numpydoc.mk_DocParameter "a" "str" []]
                    [ast.mk_arg "a" (Some "int")]
                    Reference.def_add "Function `add`:")).
    reflexivity.
Defined.

(** Without documented parameters: the constructor of [Bare], which
    declares [self] only, gets no argument violation; the function [add],
    which declares two parameters, gets a 101. *)
Lemma checkArguments_implicit_first_parameter_witness :
  numpydoc.Parameters Reference.no_sections = []
  /\ checkArguments (collaborators := Reference.collaborators) Visitor_default
       Reference.init_of_Bare (Some Reference.class_Bare) Reference.no_sections
     = []
  /\ emits 101
       (checkArguments (collaborators := Reference.collaborators) Visitor_default
          Reference.def_add None Reference.no_sections) = true.
Proof.
  split; [reflexivity | split].
  - apply (proj1 (checkArguments_implicit_first_parameter
                    (collaborators := Reference.collaborators) Visitor_default
                    Reference.init_of_Bare (Some Reference.class_Bare)
                    Reference.no_sections eq_refl)).
    + reflexivity.
    + simpl. lia.
  - apply (proj2 (checkArguments_implicit_first_parameter
                    (collaborators := Reference.collaborators) Visitor_default
                    Reference.def_add None Reference.no_sections eq_refl)).
    + reflexivity.
    + discriminate.
Defined.
